(** * EPOP platform: the JWT session subsystem

    A shallow embedding of the token lifecycle of the platform
    (lib/auth/jwt.ts, lib/auth/password.ts, lib/auth/middleware.ts and the
    login route) together with the properties its specification states.

    Conventions.
    - A JavaScript string is a Rocq [string], one character per UTF-16 code
      unit (code units below 256); [length] is the JavaScript [length].
    - A [Date] is its number of milliseconds since the epoch, a [Z]; date
      arithmetic is the one of a zone without daylight-saving shifts.
    - An [async] function is a [Prog]: the database statements it awaits, in
      order, each one atomic; [run] executes it without interruption and
      [race] interleaves two of them at their awaits.
    - A function reads the clock once per call ([now]); [refreshTokens],
      which reads it again after an awaited statement, has the second
      reading as well ([later]). *)

From Stdlib Require Import ZArith List String Ascii Bool Lia.
From Stdlib Require Import Strings.Byte DecimalString.
Import ListNotations.
Local Open Scope string_scope.
Local Open Scope list_scope.
Local Open Scope Z_scope.

(* ================================================================== *)
(** * Definitions *)
(* ================================================================== *)

(** ** JavaScript strings *)

Module Js.

Definition eqb (a b : string) : bool := if string_dec a b then true else false.

(** [!s] on a string: only the empty string is falsy. *)
Definition falsy (s : string) : bool := eqb s "".

(** [s.split(sep)] for a one-character separator. *)
Fixpoint split (sep : ascii) (s : string) : list string :=
  match s with
  | EmptyString => [EmptyString]
  | String c rest =>
      if Ascii.eqb c sep then EmptyString :: split sep rest
      else match split sep rest with
           | [] => [String c EmptyString]
           | w :: ws => String c w :: ws
           end
  end.

(** [hay.includes(needle)]. *)
Fixpoint includes (hay needle : string) : bool :=
  if String.prefix needle hay then true
  else match hay with
       | EmptyString => false
       | String _ rest => includes rest needle
       end.

Definition startsWith (s p : string) : bool := String.prefix p s.

(** [!s.includes(c)] for a single character. *)
Fixpoint lacks (c : ascii) (s : string) : bool :=
  match s with
  | EmptyString => true
  | String x rest => negb (Ascii.eqb x c) && lacks c rest
  end.

(** White space that [parseInt] skips (the code units below 256 of the
    ECMAScript WhiteSpace and LineTerminator productions). *)
Definition is_space (c : ascii) : bool :=
  let n := N_of_ascii c in
  (N.eqb n 9 || N.eqb n 10 || N.eqb n 11 || N.eqb n 12 || N.eqb n 13
   || N.eqb n 32 || N.eqb n 160)%bool.

Fixpoint trimStart (s : string) : string :=
  match s with
  | String c rest => if is_space c then trimStart rest else s
  | EmptyString => EmptyString
  end.

Definition digit (c : ascii) : option Z :=
  let n := Z.of_N (N_of_ascii c) in
  if (48 <=? n) && (n <=? 57) then Some (n - 48) else None.

(** The longest prefix of decimal digits, as a number; [None] when the
    string does not start with a digit. *)
Fixpoint digits (acc : option Z) (s : string) : option Z :=
  match s with
  | String c rest =>
      match digit c with
      | Some d => digits (Some (10 * match acc with Some a => a | None => 0 end + d)) rest
      | None => acc
      end
  | EmptyString => acc
  end.

(** [parseInt(x, 10)]; [x] is [None] for [undefined] and the result is
    [None] for [NaN]. *)
Definition parseInt (x : option string) : option Z :=
  match x with
  | None => None   (* "undefined" has no leading digit *)
  | Some s =>
      match trimStart s with
      | String "-" rest => option_map Z.opp (digits None rest)
      | String "+" rest => digits None rest
      | t => digits None t
      end
  end.

(** [s.toLowerCase()] on code units below 256. *)
Definition lower_char (c : ascii) : ascii :=
  let n := N_of_ascii c in
  if ((N.leb 65 n && N.leb n 90)
      || (N.leb 192 n && N.leb n 222 && negb (N.eqb n 215)))%bool
  then ascii_of_N (n + 32) else c.

Fixpoint toLowerCase (s : string) : string :=
  match s with
  | EmptyString => EmptyString
  | String c rest => String (lower_char c) (toLowerCase rest)
  end.

Fixpoint trimEnd (s : string) : string :=
  match s with
  | EmptyString => EmptyString
  | String c rest =>
      match trimEnd rest with
      | EmptyString => if is_space c then EmptyString else String c EmptyString
      | t => String c t
      end
  end.

(** [s.trim()]. *)
Definition trim (s : string) : string := trimEnd (trimStart s).

End Js.

(** ** Exceptions, settled promises and asynchronous programs *)

(** What a [throw] carries.  [message] is what [error.message] reads. *)
Inductive Thrown : Type :=
| Error (message : string)               (* new Error(message) *)
| RangeError (message : string)          (* Node's argument validation *)
| TokenExpiredError                      (* jsonwebtoken *)
| NotBeforeError                         (* jsonwebtoken *)
| JsonWebTokenError (message : string)   (* jsonwebtoken *)
| DatabaseError (constraint : string).   (* a statement the store rejects *)

Definition message (e : Thrown) : string :=
  match e with
  | Error m | RangeError m | JsonWebTokenError m => m
  | TokenExpiredError => "jwt expired"
  | NotBeforeError => "jwt not active"
  | DatabaseError c => ("duplicate key value violates unique constraint " ++ c)%string
  end.

(** [e instanceof jwt.TokenExpiredError] and [e instanceof
    jwt.JsonWebTokenError]: the two other error classes of the package
    extend [JsonWebTokenError]. *)
Definition instanceof_TokenExpiredError (e : Thrown) : bool :=
  match e with TokenExpiredError => true | _ => false end.

Definition instanceof_JsonWebTokenError (e : Thrown) : bool :=
  match e with
  | TokenExpiredError | NotBeforeError | JsonWebTokenError _ => true
  | _ => false
  end.

(** A settled promise. *)
Inductive Settled (A : Type) : Type :=
| Resolved (a : A)
| Rejected (e : Thrown).
Arguments Resolved {A} a.
Arguments Rejected {A} e.

Definition is_resolved {A} (r : Settled A) : bool :=
  match r with Resolved _ => true | Rejected _ => false end.

Section Programs.

(** The shared store the programs act on. *)
Variable St : Type.

(** An asynchronous function body: it returns, throws, or awaits one
    statement on the store and goes on with its result.  Between two
    awaits nothing else runs. *)
Inductive Prog (A : Type) : Type :=
| Return (a : A)
| Raise (e : Thrown)
| Await (X : Type) (stmt : St -> X * St) (k : X -> Prog A).

Arguments Return {A} a.
Arguments Raise {A} e.
Arguments Await {A X} stmt k.

Fixpoint bind {A B} (p : Prog A) (f : A -> Prog B) : Prog B :=
  match p with
  | Return a => f a
  | Raise e => Raise e
  | Await stmt k => Await stmt (fun x => bind (k x) f)
  end.

(** [try { p } catch (e) { h e }]. *)
Fixpoint try_catch {A} (p : Prog A) (h : Thrown -> Prog A) : Prog A :=
  match p with
  | Return a => Return a
  | Raise e => h e
  | Await stmt k => Await stmt (fun x => try_catch (k x) h)
  end.

(** A promise that is already settled, awaited. *)
Definition settle {A} (r : Settled A) : Prog A :=
  match r with Resolved a => Return a | Rejected e => Raise e end.

(** Uninterrupted execution. *)
Fixpoint run {A} (p : Prog A) (s : St) : Settled A * St :=
  match p with
  | Return a => (Resolved a, s)
  | Raise e => (Rejected e, s)
  | Await stmt k => let (x, s') := stmt s in run (k x) s'
  end.

(** One statement of a program. *)
Definition step {A} (p : Prog A) (s : St) : Prog A * St :=
  match p with
  | Await stmt k => let (x, s') := stmt s in (k x, s')
  | _ => (p, s)
  end.

(** Two requests in flight: the schedule says whose statement the store
    executes next ([false] the first request, [true] the second); what is
    left when the schedule ends runs to completion, the first request
    first. *)
Fixpoint race {A B} (schedule : list bool) (pa : Prog A) (pb : Prog B) (s : St)
  : Settled A * Settled B * St :=
  match schedule with
  | false :: rest => let (pa', s') := step pa s in race rest pa' pb s'
  | true :: rest => let (pb', s') := step pb s in race rest pa pb' s'
  | [] => let (ra, s1) := run pa s in
          let (rb, s2) := run pb s1 in (ra, rb, s2)
  end.

End Programs.

Arguments Return {St A} a.
Arguments Raise {St A} e.
Arguments Await {St A X} stmt k.
Arguments bind {St A B} p f.
Arguments try_catch {St A} p h.
Arguments settle {St A} r.
Arguments run {St A} p s.
Arguments step {St A} p s.
Arguments race {St A B} schedule pa pb s.

Notation "x <- p ;; q" := (bind p (fun x => q))
  (at level 61, p at next level, right associativity).
Notation "p ;; q" := (bind p (fun _ => q))
  (at level 61, right associativity).

(** [await stmt] for a statement that cannot fail. *)
Definition await {St X} (stmt : St -> X * St) : Prog St X := Await stmt Return.

(** [await stmt] for a statement the store may reject. *)
Definition await_checked {St X} (stmt : St -> (Thrown + X) * St) : Prog St X :=
  Await stmt (fun r => match r with inl e => Raise e | inr x => Return x end).

(** [Awaits Q p]: every statement that [p] can await is one of [Q]. *)
Inductive Awaits {St : Type} (Q : forall X : Type, (St -> X * St) -> Prop) {A : Type}
  : Prog St A -> Prop :=
| awaits_Return a : Awaits Q (Return a)
| awaits_Raise e : Awaits Q (Raise e)
| awaits_Await X (stmt : St -> X * St) k :
    Q X stmt -> (forall x, Awaits Q (k x)) -> Awaits Q (Await stmt k).

(** ** Crypto primitives *)

Module Crypto.

(** [buf.toString('hex')]. *)
Definition hex_digit (n : N) : ascii :=
  ascii_of_N (if N.ltb n 10 then 48 + n else 87 + n).

Definition hex_of_byte (b : byte) : string :=
  let n := Byte.to_N b in
  String (hex_digit (N.div n 16)) (String (hex_digit (N.modulo n 16)) EmptyString).

Fixpoint hex (bs : list byte) : string :=
  match bs with
  | [] => EmptyString
  | b :: rest => (hex_of_byte b ++ hex rest)%string
  end.

(** The byte that two hex digits at the head of a string stand for
    ([Buffer.from(s, 'hex')]). *)
Definition hex_value (c : ascii) : N :=
  let n := N_of_ascii c in if N.ltb n 58 then n - 48 else n - 87.

Definition unhex_byte (s : string) : option byte :=
  match s with
  | String c1 (String c2 _) => Byte.of_N (16 * hex_value c1 + hex_value c2)
  | _ => None
  end.

(** The UTF-8 encoding of a string (what Node passes to OpenSSL for a
    string argument): one byte below 128, two bytes from 128 to 255. *)
Definition utf8_char (c : ascii) : list byte :=
  let n := N_of_ascii c in
  if N.ltb n 128 then [byte_of_ascii c]
  else [byte_of_ascii (ascii_of_N (192 + N.div n 64));
        byte_of_ascii (ascii_of_N (128 + N.modulo n 64))].

Fixpoint utf8 (s : string) : list byte :=
  match s with
  | EmptyString => []
  | String c rest => utf8_char c ++ utf8 rest
  end.

(** The hash primitives behind [crypto.pbkdf2(.., 'sha512')]: SHA-512
    itself, and the PBKDF2 iteration (RFC 8018) over HMAC once HMAC has
    prepared its key. *)
Class Kdf : Type := {
  sha512 : list byte -> list byte;
  pbkdf2_rounds : list byte -> list byte -> Z -> list byte
}.

Section WithKdf.
Context {kdf : Kdf}.

(** HMAC (RFC 2104) brings its key to the block size of the hash, 128
    bytes for SHA-512: a longer key is hashed, and the key is then
    padded with zero bytes. *)
Definition hmac_key_block (key : list byte) : list byte :=
  let k := if Nat.ltb 128 (List.length key) then sha512 key else key in
  k ++ repeat x00 (128 - List.length k)%nat.

(** PBKDF2-HMAC-SHA512 with a 64-byte key: the password is the HMAC key. *)
Definition pbkdf2_hmac_sha512 (password salt : string) (iterations : Z) : list byte :=
  pbkdf2_rounds (hmac_key_block (utf8 password)) (utf8 salt) iterations.

(** [crypto.pbkdf2(password, salt, iterations, 64, 'sha512', cb)]:
    Node validates [iterations] (an integer from 1 to 2^31 - 1) and throws
    synchronously otherwise; [None] is [NaN]. *)
Definition pbkdf2 (password salt : string) (iterations : option Z)
  : Thrown + list byte :=
  match iterations with
  | Some n =>
      if (1 <=? n) && (n <=? 2147483647)
      then inr (pbkdf2_hmac_sha512 password salt n)
      else inl (RangeError "The value of iterations is out of range")
  | None => inl (RangeError "The value of iterations is out of range")
  end.

End WithKdf.

End Crypto.

(** ** The jsonwebtoken package

    Model of the package of that name (not part of the repository), as far
    as the service uses it.  A token is kept decoded; the HS256 signature
    is the symbolic term over the key and the signed claims, so that a
    signature verifies under a key exactly when it was made with it. *)

Module Jwt.

Inductive Body : Type :=
| AccessBody (userId email role : string)
| RefreshBody (type : string).

Record Claims : Type := mkClaims {
  body : Body;
  iat : Z;
  exp : option Z;
  nbf : option Z;
  iss : option string;
  aud : option string
}.

Inductive Signature : Type :=
| HS256 (key : string) (signed : Claims)
| Garbage (raw : string).

Inductive Token : Type :=
| Malformed (raw : string)   (* a string that does not decode as a JWT *)
| Jws (claims : Claims) (sig : Signature).

Definition opt_dec {A} (dec : forall x y : A, {x = y} + {x <> y})
  : forall x y : option A, {x = y} + {x <> y}.
Proof. decide equality. Defined.

Definition Body_dec : forall x y : Body, {x = y} + {x <> y}.
Proof. decide equality; apply string_dec. Defined.

Definition Claims_dec : forall x y : Claims, {x = y} + {x <> y}.
Proof.
  decide equality;
    first [ apply (opt_dec string_dec) | apply (opt_dec Z.eq_dec)
          | apply Z.eq_dec | apply Body_dec ].
Defined.

Definition Signature_dec : forall x y : Signature, {x = y} + {x <> y}.
Proof. decide equality; first [ apply string_dec | apply Claims_dec ]. Defined.

Definition Token_dec : forall x y : Token, {x = y} + {x <> y}.
Proof.
  decide equality; first [ apply string_dec | apply Claims_dec | apply Signature_dec ].
Defined.

(** [Math.floor(Date.now() / 1000)]. *)
Definition clockTimestamp (now : Z) : Z := now / 1000.

(** [jwt.sign(payload, secret, { expiresIn, issuer, audience })] at [now]. *)
Definition sign (payload : Body) (secret : string) (expiresIn : Z)
           (issuer audience : option string) (now : Z) : Token :=
  let c := {| body := payload;
              iat := clockTimestamp now;
              exp := Some (clockTimestamp now + expiresIn);
              nbf := None;
              iss := issuer;
              aud := audience |} in
  Jws c (HS256 secret c).

(** An expected issuer or audience, when the options name one. *)
Definition claim_matches (expected actual : option string) : bool :=
  match expected with
  | None => true
  | Some e => match actual with Some a => Js.eqb a e | None => false end
  end.

(** [jwt.verify(token, secret, { issuer, audience })] at [now]: the
    signature first, then [nbf], then [exp], then audience and issuer. *)
Definition verify (token : Token) (secret : string)
           (issuer audience : option string) (now : Z) : Thrown + Claims :=
  match token with
  | Malformed _ => inl (JsonWebTokenError "jwt malformed")
  | Jws c sig =>
      if Signature_dec sig (HS256 secret c) then
        if match nbf c with Some n => clockTimestamp now <? n | None => false end
        then inl NotBeforeError
        else if match exp c with Some e => e <=? clockTimestamp now | None => false end
        then inl TokenExpiredError
        else if negb (claim_matches audience (aud c))
        then inl (JsonWebTokenError "jwt audience invalid")
        else if negb (claim_matches issuer (iss c))
        then inl (JsonWebTokenError "jwt issuer invalid")
        else inr c
      else inl (JsonWebTokenError "invalid signature")
  end.

(** The SHA-256 digest of a token, symbolic as well: equal digests come
    from equal tokens. *)
Inductive Digest : Type := SHA256 (t : Token).

Definition Digest_dec : forall x y : Digest, {x = y} + {x <> y}.
Proof. decide equality; apply Token_dec. Defined.

End Jwt.

(** ** The store (db/schema/auth.ts and migration 0001)

    A table is the list of its rows in insertion order; a query without
    [ORDER BY] reads them in that order.  The statements are the ones the
    ORM builds from the table objects of db/schema/auth.ts. *)

Module Store.
Import Jwt.

#[local] Unset Elimination Schemes.
Inductive Json : Type :=
| JUndefined
| JBool (b : bool)
| JNum (n : Z)
| JStr (s : string)
| JToken (t : Token)
| JObj (fields : list (string * Json)).
#[local] Set Elimination Schemes.

Definition jopt (x : option string) : Json :=
  match x with Some s => JStr s | None => JUndefined end.

(** Table [users]. *)
Record User : Type := mkUser {
  u_id : string;
  u_email : string;
  u_passwordHash : string;
  u_name : string;
  u_role : string;                       (* 'ADMIN' | 'USER' *)
  u_status : string;                     (* 'ACTIVE' | 'INACTIVE' | 'SUSPENDED' *)
  u_avatarUrl : option string;
  u_lastLoginAt : option Z;
  u_emailVerified : bool;
  u_emailVerificationToken : option string;
  u_passwordResetToken : option string;
  u_passwordResetExpires : option Z;
  u_failedLoginAttempts : Z;
  u_lockedUntil : option Z;
  u_createdAt : Z;
  u_updatedAt : Z
}.

(** Table [refresh_tokens].  The column [token_hash] is added to the table
    by migration 0001 and may be NULL; the table object [refreshTokens] of
    db/schema/auth.ts does not declare it, so that no statement of the ORM
    writes it or can name it. *)
Record RefreshToken : Type := mkRefreshToken {
  rt_id : string;
  rt_userId : string;
  rt_token : Token;
  rt_tokenHash : option Digest;
  rt_deviceFingerprint : option string;
  rt_expiresAt : Z;
  rt_isActive : bool;
  rt_lastUsedAt : option Z;
  rt_createdAt : Z;
  rt_ipAddress : option string;
  rt_userAgent : option string
}.

(** Table [audit_logs]; the generated id of an audit row is never read
    and is left out. *)
Record AuditLog : Type := mkAuditLog {
  al_actorId : option string;
  al_action : string;
  al_targetId : option string;
  al_targetResource : option string;
  al_metadata : Json;
  al_ipAddress : option string;
  al_userAgent : option string;
  al_success : bool;
  al_errorMessage : option string;
  al_createdAt : Z
}.

Record Db : Type := mkDb {
  users : list User;
  refreshTokens : list RefreshToken;
  auditLogs : list AuditLog
}.

Definition empty : Db := mkDb [] [] [].

Definition with_users (db : Db) (us : list User) : Db :=
  mkDb us (refreshTokens db) (auditLogs db).
Definition with_refreshTokens (db : Db) (rs : list RefreshToken) : Db :=
  mkDb (users db) rs (auditLogs db).
Definition with_auditLogs (db : Db) (ls : list AuditLog) : Db :=
  mkDb (users db) (refreshTokens db) ls.

(** Row updates, one per [.set({...})] of the services. *)
Definition set_isActive (b : bool) (r : RefreshToken) : RefreshToken :=
  mkRefreshToken (rt_id r) (rt_userId r) (rt_token r) (rt_tokenHash r)
    (rt_deviceFingerprint r) (rt_expiresAt r) b (rt_lastUsedAt r)
    (rt_createdAt r) (rt_ipAddress r) (rt_userAgent r).

Definition set_used (at_ : Z) (r : RefreshToken) : RefreshToken :=
  mkRefreshToken (rt_id r) (rt_userId r) (rt_token r) (rt_tokenHash r)
    (rt_deviceFingerprint r) (rt_expiresAt r) false (Some at_)
    (rt_createdAt r) (rt_ipAddress r) (rt_userAgent r).

(** [{ failedLoginAttempts, lockedUntil }]: a key whose value is
    [undefined] is not part of the update. *)
Definition set_failedLogin (attempts : Z) (lockedUntil : option Z) (u : User) : User :=
  mkUser (u_id u) (u_email u) (u_passwordHash u) (u_name u) (u_role u) (u_status u)
    (u_avatarUrl u) (u_lastLoginAt u) (u_emailVerified u) (u_emailVerificationToken u)
    (u_passwordResetToken u) (u_passwordResetExpires u) attempts
    (match lockedUntil with Some t => Some t | None => u_lockedUntil u end)
    (u_createdAt u) (u_updatedAt u).

(** [{ failedLoginAttempts: 0, lockedUntil: null, lastLoginAt }]. *)
Definition set_loginSuccess (at_ : Z) (u : User) : User :=
  mkUser (u_id u) (u_email u) (u_passwordHash u) (u_name u) (u_role u) (u_status u)
    (u_avatarUrl u) (Some at_) (u_emailVerified u) (u_emailVerificationToken u)
    (u_passwordResetToken u) (u_passwordResetExpires u) 0 None
    (u_createdAt u) (u_updatedAt u).

(** [{ lastLoginAt, updatedAt }]. *)
Definition set_lastLogin (at_ : Z) (u : User) : User :=
  mkUser (u_id u) (u_email u) (u_passwordHash u) (u_name u) (u_role u) (u_status u)
    (u_avatarUrl u) (Some at_) (u_emailVerified u) (u_emailVerificationToken u)
    (u_passwordResetToken u) (u_passwordResetExpires u) (u_failedLoginAttempts u)
    (u_lockedUntil u) (u_createdAt u) at_.

(** [{ passwordHash, passwordResetToken: null, passwordResetExpires: null,
      failedLoginAttempts: 0, lockedUntil: null, updatedAt }]. *)
Definition set_passwordReset (hash : string) (at_ : Z) (u : User) : User :=
  mkUser (u_id u) (u_email u) hash (u_name u) (u_role u) (u_status u)
    (u_avatarUrl u) (u_lastLoginAt u) (u_emailVerified u) (u_emailVerificationToken u)
    None None 0 None (u_createdAt u) at_.

(** [{ passwordResetToken, passwordResetExpires, updatedAt }]. *)
Definition set_resetToken (token : string) (expires at_ : Z) (u : User) : User :=
  mkUser (u_id u) (u_email u) (u_passwordHash u) (u_name u) (u_role u) (u_status u)
    (u_avatarUrl u) (u_lastLoginAt u) (u_emailVerified u) (u_emailVerificationToken u)
    (Some token) (Some expires) (u_failedLoginAttempts u) (u_lockedUntil u)
    (u_createdAt u) at_.

(** [{ passwordHash, updatedAt }]. *)
Definition set_passwordHash (hash : string) (at_ : Z) (u : User) : User :=
  mkUser (u_id u) (u_email u) hash (u_name u) (u_role u) (u_status u)
    (u_avatarUrl u) (u_lastLoginAt u) (u_emailVerified u) (u_emailVerificationToken u)
    (u_passwordResetToken u) (u_passwordResetExpires u) (u_failedLoginAttempts u)
    (u_lockedUntil u) (u_createdAt u) at_.

(** *** Statements *)

(** [db.select().from(users).where(w).limit(1)]. *)
Definition select_user (w : User -> bool) (db : Db) : option User * Db :=
  (find w (users db), db).

(** [db.update(users).set(f).where(w)]. *)
Definition update_users (w : User -> bool) (f : User -> User) (db : Db) : unit * Db :=
  (tt, with_users db (map (fun u => if w u then f u else u) (users db))).

(** What the store answers to a statement whose WHERE clause compares
    [refreshTokens.tokenHash] with a digest.  The table object has no such
    column: the left-hand side of the comparison is [undefined], the SQL
    that is sent has nothing before the [=], and the server rejects the
    statement.  The error it is rejected with belongs to the driver; it may
    depend on the statement and on its parameters. *)
Class Rejections : Type := {
  select_rejected : Digest -> Thrown;
  update_rejected : Digest -> option string -> Thrown
}.

(** [db.select().from(refreshTokens)
      .where(and(eq(refreshTokens.tokenHash, h), eq(refreshTokens.isActive, true)))
      .limit(1)]. *)
Definition select_refreshToken_by_tokenHash {rejections : Rejections} (h : Digest) (db : Db)
  : (Thrown + option RefreshToken) * Db :=
  (inl (select_rejected h), db).

(** [db.update(refreshTokens).set(f).where(eq(refreshTokens.tokenHash, h))],
    or with [and(eq(refreshTokens.tokenHash, h), eq(refreshTokens.userId, u))]
    for the WHERE clause; the result would be [rowCount]. *)
Definition update_refreshTokens_by_tokenHash {rejections : Rejections}
           (h : Digest) (userId : option string)
           (f : RefreshToken -> RefreshToken) (db : Db) : (Thrown + Z) * Db :=
  (inl (update_rejected h userId), db).

(** [db.update(refreshTokens).set(f).where(w)]; the result is [rowCount]. *)
Definition update_refreshTokens (w : RefreshToken -> bool)
           (f : RefreshToken -> RefreshToken) (db : Db) : Z * Db :=
  (Z.of_nat (List.length (filter w (refreshTokens db))),
   with_refreshTokens db (map (fun r => if w r then f r else r) (refreshTokens db))).

(** [db.delete(refreshTokens).where(w)]. *)
Definition delete_refreshTokens (w : RefreshToken -> bool) (db : Db) : unit * Db :=
  (tt, with_refreshTokens db (filter (fun r => negb (w r)) (refreshTokens db))).

(** The row that an insert of the values [r] stores: the key [tokenHash]
    of the values is no column of the table object and is dropped, and
    [token_hash] is left NULL. *)
Definition stored (r : RefreshToken) : RefreshToken :=
  mkRefreshToken (rt_id r) (rt_userId r) (rt_token r) None
    (rt_deviceFingerprint r) (rt_expiresAt r) (rt_isActive r) (rt_lastUsedAt r)
    (rt_createdAt r) (rt_ipAddress r) (rt_userAgent r).

(** [db.insert(refreshTokens).values(r)]: the table has a primary key and
    a unique constraint on [token]; the unique index on [token_hash] is not
    violated by a NULL. *)
Definition insert_refreshToken (r : RefreshToken) (db : Db) : (Thrown + unit) * Db :=
  let rows := refreshTokens db in
  if existsb (fun x => Js.eqb (rt_id x) (rt_id r)) rows
  then (inl (DatabaseError "refresh_tokens_pkey"), db)
  else if existsb (fun x => if Token_dec (rt_token x) (rt_token r) then true else false) rows
  then (inl (DatabaseError "refresh_tokens_token_unique"), db)
  else (inr tt, with_refreshTokens db (rows ++ [stored r])).

(** [db.insert(auditLogs).values(l)]. *)
Definition insert_auditLog (l : AuditLog) (db : Db) : unit * Db :=
  (tt, with_auditLogs db (auditLogs db ++ [l])).

(** The syntax of a [uuid] as the store prints it: 8, 4, 4, 4 and 12
    hexadecimal digits, separated by hyphens.  A comparison of a [uuid]
    column with a string of this form is accepted by the server. *)
Definition is_hex (c : ascii) : bool :=
  let n := N_of_ascii c in
  ((N.leb 48 n && N.leb n 57) || (N.leb 97 n && N.leb n 102)
   || (N.leb 65 n && N.leb n 70))%bool.

Fixpoint uuid_groups (groups : list nat) (s : string) {struct s} : bool :=
  match groups with
  | [] => match s with EmptyString => true | _ => false end
  | O :: rest =>
      match rest, s with
      | [], EmptyString => true
      | _ :: _, String "-" s' => uuid_groups rest s'
      | _, _ => false
      end
  | S n :: rest =>
      match s with
      | String c s' => is_hex c && uuid_groups (n :: rest) s'
      | EmptyString => false
      end
  end.

Definition is_uuid (s : string) : bool := uuid_groups [8; 4; 4; 4; 12]%nat s.

End Store.

(** ** lib/auth/jwt.ts *)

Module JWTService.
Import Jwt Store.

(** [JWT_SECRET] and [JWT_REFRESH_SECRET]: process configuration. *)
Class Config : Type := {
  JWT_SECRET : string;
  JWT_REFRESH_SECRET : string
}.

(** The fall-back values of the source. *)
Definition default_config : Config := {|
  JWT_SECRET := "your-secret-key-change-in-production";
  JWT_REFRESH_SECRET := "your-refresh-secret-change-in-production"
|}.

Definition JWT_EXPIRES_IN : Z := 15 * 60.                  (* '15m' *)
Definition JWT_REFRESH_EXPIRES_IN : Z := 7 * 24 * 60 * 60. (* '7d' *)

Record TokenPair : Type := mkTokenPair {
  accessToken : Token;
  refreshToken : Token;
  expiresIn : Z
}.

Definition hashToken (token : Token) : Digest := SHA256 token.

Section WithConfig.
Context {cfg : Config} {rejections : Rejections}.

Definition generateAccessToken (userId email role : string) (now : Z) : Token :=
  Jwt.sign (AccessBody userId email role) JWT_SECRET JWT_EXPIRES_IN
           (Some "epop-platform") (Some "epop-client") now.

Definition generateRefreshToken (now : Z) : Token :=
  Jwt.sign (RefreshBody "refresh") JWT_REFRESH_SECRET JWT_REFRESH_EXPIRES_IN
           None None now.

Definition verifyAccessToken (token : Token) (now : Z) : Thrown + Claims :=
  match Jwt.verify token JWT_SECRET (Some "epop-platform") (Some "epop-client") now with
  | inr payload => inr payload
  | inl error =>
      if instanceof_TokenExpiredError error then inl (Error "Access token expired")
      else if instanceof_JsonWebTokenError error then inl (Error "Invalid access token")
      else inl (Error "Token verification failed")
  end.

Definition verifyRefreshToken (token : Token) (now : Z) : Thrown + Claims :=
  match Jwt.verify token JWT_REFRESH_SECRET None None now with
  | inr payload => inr payload
  | inl error =>
      if instanceof_TokenExpiredError error then inl (Error "Refresh token expired")
      else if instanceof_JsonWebTokenError error then inl (Error "Invalid refresh token")
      else inl (Error "Refresh token verification failed")
  end.

Definition createAuditLog (actorId : option string) (action : string)
           (targetResource : option string) (metadata : Json)
           (ipAddress userAgent : option string) (now : Z) : Prog Db unit :=
  await (insert_auditLog {|
    al_actorId := actorId;
    al_action := action;
    al_targetId := None;
    al_targetResource := targetResource;
    al_metadata := metadata;
    al_ipAddress := ipAddress;
    al_userAgent := userAgent;
    al_success := true;
    al_errorMessage := None;
    al_createdAt := now |}).

(** [uuid] is the id the store generates for the new row.  The values of
    the insert name the digest; the row that is stored does not have it
    (see [insert_refreshToken]). *)
Definition createTokenPair (userId : string)
           (deviceFingerprint ipAddress userAgent : option string)
           (now : Z) (uuid : string) : Prog Db TokenPair :=
  user <- await (select_user (fun u => Js.eqb (u_id u) userId)) ;;
  match user with
  | None => Raise (Error "User not found")
  | Some user =>
      let accessToken := generateAccessToken (u_id user) (u_email user) (u_role user) now in
      let refreshToken := generateRefreshToken now in
      let expiresAt := now + 7 * 86400000 in
      let refreshTokenHash := hashToken refreshToken in
      await_checked (insert_refreshToken {|
        rt_id := uuid;
        rt_userId := u_id user;
        rt_token := refreshToken;
        rt_tokenHash := Some refreshTokenHash;
        rt_deviceFingerprint := deviceFingerprint;
        rt_expiresAt := expiresAt;
        rt_isActive := true;
        rt_lastUsedAt := None;
        rt_createdAt := now;
        rt_ipAddress := ipAddress;
        rt_userAgent := userAgent |}) ;;
      createAuditLog (Some userId) "TOKEN_REFRESH_CREATED" (Some "refresh_token")
        (JObj [("deviceFingerprint", jopt deviceFingerprint);
               ("ipAddress", jopt ipAddress)])
        ipAddress userAgent now ;;
      Return {| accessToken := accessToken;
                refreshToken := refreshToken;
                expiresIn := 15 * 60 |}
  end.

Definition has_id (id : string) (r : RefreshToken) : bool := Js.eqb (rt_id r) id.

(** [now] is the clock when the token is verified, [later] the clock when
    the look-up has returned.  The look-up names the column [tokenHash]
    and is rejected by the store (see [select_refreshToken_by_tokenHash]):
    the function throws there, and what follows the look-up is never
    reached. *)
Definition refreshTokens (refreshToken : Token)
           (deviceFingerprint ipAddress userAgent : option string)
           (now later : Z) (uuid : string) : Prog Db TokenPair :=
  match verifyRefreshToken refreshToken now with
  | inl _ => Raise (Error "Invalid or expired refresh token")
  | inr _ =>
      let refreshTokenHash := hashToken refreshToken in
      tokenRecord <- await_checked (select_refreshToken_by_tokenHash refreshTokenHash) ;;
      match tokenRecord with
      | None => Raise (Error "Refresh token not found or inactive")
      | Some tokenRecord =>
          if rt_expiresAt tokenRecord <? later then
            await (update_refreshTokens (has_id (rt_id tokenRecord)) (set_isActive false)) ;;
            Raise (Error "Refresh token expired")
          else
            await (update_refreshTokens (has_id (rt_id tokenRecord)) (set_used later)) ;;
            tokenPair <- createTokenPair (rt_userId tokenRecord)
                           deviceFingerprint ipAddress userAgent later uuid ;;
            createAuditLog (Some (rt_userId tokenRecord)) "TOKEN_REFRESHED"
              (Some "refresh_token")
              (JObj [("oldTokenId", JStr (rt_id tokenRecord));
                     ("deviceFingerprint", jopt deviceFingerprint)])
              ipAddress userAgent later ;;
            Return tokenPair
      end
  end.

(** [if (userId)]: an absent or empty user id does not narrow the update.
    Either WHERE clause names the column [tokenHash], and the update is
    rejected by the store (see [update_refreshTokens_by_tokenHash]). *)
Definition revokeRefreshToken (token : Token) (userId : option string) : Prog Db unit :=
  let tokenHash := hashToken token in
  let narrowed :=
    match userId with
    | Some u => if Js.falsy u then None else Some u
    | None => None
    end in
  rowCount <- await_checked
                (update_refreshTokens_by_tokenHash tokenHash narrowed (set_isActive false)) ;;
  if rowCount =? 0 then Raise (Error "Refresh token not found") else Return tt.

Definition revokeAllRefreshTokens (userId : string) : Prog Db unit :=
  await (update_refreshTokens (fun r => Js.eqb (rt_userId r) userId) (set_isActive false)) ;;
  Return tt.

Definition cleanupExpiredTokens (now : Z) : Prog Db unit :=
  await (delete_refreshTokens
           (fun r => Bool.eqb (rt_isActive r) false && (rt_expiresAt r <? now))).

End WithConfig.

End JWTService.

(** ** lib/auth/password.ts *)

Module PasswordService.
Import Store Crypto.

(** [`${n}`] for an integer. *)
Definition show (n : Z) : string := NilZero.string_of_int (Z.to_int n).

Definition len (s : string) : Z := Z.of_nat (String.length s).

Section WithKdf.
Context {kdf : Kdf}.

(** [randomBytes] is what [crypto.randomBytes(16)] returned. *)
Definition hashPassword (password : string) (randomBytes : list byte) : Settled string :=
  if Js.falsy password || (len password <? 8)
  then Rejected (Error "Password must be at least 8 characters long")
  else if 128 <? len password
  then Rejected (Error "Password must be less than 128 characters long")
  else
    let salt := hex randomBytes in
    match pbkdf2 password salt (Some 100000) with
    | inl err => Rejected err
    | inr derivedKey =>
        Resolved (salt ++ ":" ++ hex derivedKey ++ ":100000")%string
    end.

(** The promise is returned from inside the [try], not awaited there: an
    exception thrown in its executor rejects the promise and does not
    reach the [catch]. *)
Definition verifyPassword (password storedHash : string) : Settled bool :=
  if Js.falsy password || Js.falsy storedHash then Resolved false
  else
    let fields := Js.split ":" storedHash in
    let salt := nth 0 fields EmptyString in
    let hash := nth_error fields 1 in
    let iterations := nth_error fields 2 in
    let iterCount := Js.parseInt iterations in
    match pbkdf2 password salt iterCount with
    | inl err => Rejected err
    | inr derivedKey =>
        Resolved (match hash with
                  | Some h => Js.eqb (hex derivedKey) h
                  | None => false
                  end)
    end.

End WithKdf.

Definition has_id (userId : string) (u : User) : bool := Js.eqb (u_id u) userId.

Definition isUserLocked (userId : string) (now : Z) : Prog Db bool :=
  user <- await (select_user (has_id userId)) ;;
  match user with
  | None => Return false
  | Some user =>
      if match u_lockedUntil user with Some t => now <? t | None => false end
      then Return true
      else Return (5 <=? u_failedLoginAttempts user)
  end.

Definition recordFailedLogin (userId : string) (ipAddress userAgent : option string)
           (now : Z) : Prog Db unit :=
  user <- await (select_user (has_id userId)) ;;
  match user with
  | None => Return tt
  | Some user =>
      let newFailedAttempts := u_failedLoginAttempts user + 1 in
      let lockedUntil :=
        if 5 <=? newFailedAttempts then Some (now + 30 * 60000) else None in
      await (update_users (has_id userId) (set_failedLogin newFailedAttempts lockedUntil)) ;;
      await (insert_auditLog {|
        al_actorId := Some userId;
        al_action := "LOGIN_FAILED";
        al_targetId := None;
        al_targetResource := Some "user";
        al_metadata :=
          JObj [("failedAttempts", JNum newFailedAttempts);
                ("accountLocked", JBool (match lockedUntil with Some _ => true | None => false end));
                ("lockedUntil", match lockedUntil with
                                | Some t => JNum t   (* its ISO rendering *)
                                | None => JUndefined
                                end)];
        al_ipAddress := ipAddress;
        al_userAgent := userAgent;
        al_success := false;
        al_errorMessage := Some ("Failed login attempt " ++ show newFailedAttempts)%string;
        al_createdAt := now |})
  end.

Definition resetFailedLoginAttempts (userId : string) (ipAddress userAgent : option string)
           (now : Z) : Prog Db unit :=
  await (update_users (has_id userId) (set_loginSuccess now)) ;;
  await (insert_auditLog {|
    al_actorId := Some userId;
    al_action := "LOGIN_SUCCESS";
    al_targetId := None;
    al_targetResource := Some "user";
    al_metadata := JObj [];
    al_ipAddress := ipAddress;
    al_userAgent := userAgent;
    al_success := true;
    al_errorMessage := None;
    al_createdAt := now |}).

(** [eq(users.passwordResetToken, resetToken)]: never true of a null column. *)
Definition holds_resetToken (resetToken : string) (u : User) : bool :=
  match u_passwordResetToken u with
  | Some t => Js.eqb t resetToken
  | None => false
  end.

Section WithKdf.
Context {kdf : Kdf}.

Definition resetPassword (resetToken newPassword : string)
           (ipAddress userAgent : option string)
           (now : Z) (randomBytes : list byte) : Prog Db unit :=
  user <- await (select_user (holds_resetToken resetToken)) ;;
  match user with
  | None => Raise (Error "Invalid or expired reset token")
  | Some user =>
      if match u_passwordResetExpires user with Some t => t <? now | None => true end
      then Raise (Error "Reset token has expired")
      else
        newPasswordHash <- settle (hashPassword newPassword randomBytes) ;;
        await (update_users (has_id (u_id user)) (set_passwordReset newPasswordHash now)) ;;
        await (insert_auditLog {|
          al_actorId := Some (u_id user);
          al_action := "PASSWORD_RESET";
          al_targetId := None;
          al_targetResource := Some "user";
          al_metadata := JObj [];
          al_ipAddress := ipAddress;
          al_userAgent := userAgent;
          al_success := true;
          al_errorMessage := None;
          al_createdAt := now |}) ;;
        JWTService.revokeAllRefreshTokens (u_id user)
  end.

End WithKdf.

(** [token] is [Buffer.from(crypto.randomUUID()).toString('base64')]. *)
Definition generatePasswordResetToken (email : string) (now : Z) (token : string)
  : Prog Db string :=
  user <- await (select_user (fun u => Js.eqb (u_email u) email)) ;;
  match user with
  | None => Raise (Error "User with this email does not exist")
  | Some user =>
      let expiresAt := now + 60 * 60000 in
      await (update_users (has_id (u_id user)) (set_resetToken token expiresAt now)) ;;
      await (insert_auditLog {|
        al_actorId := Some (u_id user);
        al_action := "PASSWORD_RESET_REQUESTED";
        al_targetId := None;
        al_targetResource := Some "user";
        al_metadata := JObj [("email", JStr (u_email user))];
        al_ipAddress := None;
        al_userAgent := None;
        al_success := true;
        al_errorMessage := None;
        al_createdAt := now |}) ;;
      Return token
  end.

Section Changing.
Context {kdf : Kdf}.

(** The last statement reads [refreshTokens] off the module [./jwt], which
    exports the class [JWTService] and two interfaces only: the name is
    [undefined] and the property access on it throws (a TypeError, an
    [Error] with the message below). *)
Definition changePassword (userId currentPassword newPassword : string)
           (ipAddress userAgent : option string)
           (now : Z) (randomBytes : list byte) : Prog Db unit :=
  user <- await (select_user (has_id userId)) ;;
  match user with
  | None => Raise (Error "User not found")
  | Some user =>
      isCurrentPasswordValid <- settle (verifyPassword currentPassword (u_passwordHash user)) ;;
      if negb isCurrentPasswordValid
      then Raise (Error "Current password is incorrect")
      else
        newPasswordHash <- settle (hashPassword newPassword randomBytes) ;;
        await (update_users (has_id userId) (set_passwordHash newPasswordHash now)) ;;
        await (insert_auditLog {|
          al_actorId := Some userId;
          al_action := "PASSWORD_CHANGED";
          al_targetId := None;
          al_targetResource := Some "user";
          al_metadata := JObj [];
          al_ipAddress := ipAddress;
          al_userAgent := userAgent;
          al_success := true;
          al_errorMessage := None;
          al_createdAt := now |}) ;;
        Raise (Error "Cannot read properties of undefined (reading 'revokeAllRefreshTokens')")
  end.

End Changing.

(** *** validatePasswordStrength *)

Fixpoint any (p : ascii -> bool) (s : string) : bool :=
  match s with
  | EmptyString => false
  | String c rest => p c || any p rest
  end.

Definition between (lo hi : N) (c : ascii) : bool :=
  let n := N_of_ascii c in (N.leb lo n && N.leb n hi)%bool.

(** The code units of the character class of the source's last test
    (punctuation and symbols). *)
Definition special (c : ascii) : bool :=
  existsb (N.eqb (N_of_ascii c))
    [33; 64; 35; 36; 37; 94; 38; 42; 40; 41; 95; 43; 45; 61; 91; 93; 123; 125;
     59; 39; 58; 34; 92; 124; 44; 46; 60; 62; 47; 63]%N.

Definition commonPasswords : list string :=
  ["password"; "123456"; "qwerty"; "admin"; "letmein"; "welcome"; "monkey";
   "123456789"; "password123"; "admin123"].

Definition validatePasswordStrength (password : string) : bool * list string :=
  let errors :=
    (if len password <? 8 then ["Password must be at least 8 characters long"] else [])
    ++ (if 128 <? len password then ["Password must be less than 128 characters long"] else [])
    ++ (if any (between 97 122) password then []
        else ["Password must contain at least one lowercase letter"])
    ++ (if any (between 65 90) password then []
        else ["Password must contain at least one uppercase letter"])
    ++ (if any (between 48 57) password then []
        else ["Password must contain at least one number"])
    ++ (if any special password then []
        else ["Password must contain at least one special character"])
    ++ (if existsb (Js.eqb (Js.toLowerCase password)) commonPasswords
        then ["Password is too common. Please choose a stronger password"] else []) in
  (match errors with [] => true | _ => false end, errors).

End PasswordService.

(** ** Responses *)

Record Cookie : Type := mkCookie {
  ck_name : string;
  ck_value : Jwt.Token;
  ck_httpOnly : bool;
  ck_secure : bool;
  ck_sameSite : string;
  ck_maxAge : Z
}.

Record NextResponse : Type := mkResponse {
  status : Z;
  body : Store.Json;
  cookies : list Cookie
}.

(** [NextResponse.json(body, { status })]. *)
Definition json (body : Store.Json) (status : Z) : NextResponse :=
  mkResponse status body [].

(** ** lib/auth/middleware.ts *)

Module Middleware.
Import Jwt Store.

(** The [Authorization] header of a request: ['Bearer ' + token], or a
    value that does not start with ['Bearer ']. *)
Inductive AuthHeader : Type :=
| Bearer (token : Token)
| NotBearer (raw : string).

Record Identity : Type := mkIdentity {
  id : string;
  email : string;
  role : string
}.

(** What the middleware reads of a request, and the [user] it attaches. *)
Record NextRequest : Type := mkRequest {
  authorization : option AuthHeader;
  access_token_cookie : option Token;
  user : option Identity
}.

Definition set_user (req : NextRequest) (u : Identity) : NextRequest :=
  mkRequest (authorization req) (access_token_cookie req) (Some u).

(** [req.headers.get('authorization')] returns the value of the header
    without its leading and trailing white space: a header that ends after
    ['Bearer '] is read as ['Bearer'], which does not start with
    ['Bearer '], and the cookie is tried. *)
Definition extractTokenFromRequest (req : NextRequest) : option Token :=
  let tokenCookie :=
    match access_token_cookie req with
    | Some value => Some value
    | None => None
    end in
  match authorization req with
  | Some (Bearer (Malformed raw)) => if Js.falsy raw then tokenCookie else Some (Malformed raw)
  | Some (Bearer token) => Some token
  | _ => tokenCookie
  end.

(** [!token]: no token, or the empty string (which decodes as no JWT). *)
Definition no_token (token : option Token) : bool :=
  match token with
  | None => true
  | Some (Malformed raw) => Js.falsy raw
  | Some _ => false
  end.

(** The [userId] of a verified payload read as [JWTPayload]. *)
Definition payload_userId (c : Claims) : option string :=
  match Jwt.body c with
  | AccessBody userId _ _ => Some userId
  | RefreshBody _ => None
  end.

(** The [catch] block of [withAuth]. *)
Definition auth_error (error : Thrown) : NextResponse :=
  if Js.includes (message error) "expired"
  then json (JObj [("error", JStr "Token expired"); ("code", JStr "TOKEN_EXPIRED")]) 401
  else if Js.includes (message error) "invalid"
          || Js.includes (message error) "verification failed"
  then json (JObj [("error", JStr "Invalid token")]) 401
  else json (JObj [("error", JStr "Authentication failed")]) 401.

Section WithConfig.
Context {cfg : JWTService.Config}.

(** The request handler that [withAuth(handler)] resolves to.  The result
    pairs the response with the request object as the middleware leaves
    it; the one [try] of the source is split where [req.user] is
    assigned, so that each [catch] knows the request it leaves. *)
Definition withAuth (handler : NextRequest -> Prog Db NextResponse)
           (req : NextRequest) (now : Z) : Prog Db (NextResponse * NextRequest) :=
  try_catch
    (let token := extractTokenFromRequest req in
     match token with
     | None => Return (json (JObj [("error", JStr "Authentication required")]) 401, req)
     | Some token =>
         if no_token (Some token)
         then Return (json (JObj [("error", JStr "Authentication required")]) 401, req)
         else
           match JWTService.verifyAccessToken token now with
           | inl err => Raise err
           | inr payload =>
               user <- await (select_user
                                (fun u => match payload_userId payload with
                                          | Some userId => Js.eqb (u_id u) userId
                                          | None => false
                                          end)) ;;
               match user with
               | None => Return (json (JObj [("error", JStr "User not found")]) 401, req)
               | Some user =>
                   if negb (Js.eqb (u_status user) "ACTIVE")
                   then Return (json (JObj [("error", JStr "Account is not active")]) 403, req)
                   else
                     let req' := set_user req
                                   (mkIdentity (u_id user) (u_email user) (u_role user)) in
                     try_catch (response <- handler req' ;; Return (response, req'))
                               (fun error => Return (auth_error error, req'))
               end
           end
     end)
    (fun error => Return (auth_error error, req)).

Definition withAdmin (handler : NextRequest -> Prog Db NextResponse)
  : NextRequest -> Z -> Prog Db (NextResponse * NextRequest) :=
  withAuth (fun req =>
    match user req with
    | Some u =>
        if negb (Js.eqb (role u) "ADMIN")
        then Return (json (JObj [("error", JStr "Admin access required")]) 403)
        else handler req
    | None => Return (json (JObj [("error", JStr "Admin access required")]) 403)
    end).

End WithConfig.

(** *** The rate limiter *)

(** The fields of a verified payload read as [JWTPayload]; one the payload
    lacks is [undefined]. *)
Record Claimed : Type := mkClaimed {
  claimed_id : option string;
  claimed_email : option string;
  claimed_role : option string
}.

(** A request as the limiter reads it: what the authentication reads, the
    [X-Forwarded-For] header and [req.ip]. *)
Record ClientRequest : Type := mkClientRequest {
  request : NextRequest;
  x_forwarded_for : option string;
  ip : option string
}.

(** An entry of the [requests] map; the map itself is the list of its
    entries in insertion order. *)
Record Client : Type := mkClient {
  count : Z;
  resetTime : Z
}.

Definition Requests : Type := list (string * Client).

Fixpoint get (key : string) (requests : Requests) : option Client :=
  match requests with
  | [] => None
  | (k, v) :: rest => if Js.eqb k key then Some v else get key rest
  end.

Fixpoint set (key : string) (value : Client) (requests : Requests) : Requests :=
  match requests with
  | [] => [(key, value)]
  | (k, v) :: rest =>
      if Js.eqb k key then (k, value) :: rest else (k, v) :: set key value rest
  end.

(** The loop that deletes the entries whose window is over. *)
Definition cleanup (now : Z) (requests : Requests) : Requests :=
  filter (fun entry => negb (resetTime (snd entry) <? now)) requests.

(** [Math.ceil(ms / 1000)]. *)
Definition ceil_seconds (ms : Z) : Z := - ((- ms) / 1000).

(** A response and the headers the limiter sets on it. *)
Record Limited : Type := mkLimited {
  response : NextResponse;
  headers : list (string * string)
}.

(** What the limiter decides before the handler is called: the request
    opens a window, is counted in the running one, or is turned away. *)
Inductive Verdict : Type :=
| Opens
| Counted (client : Client)
| TooMany (client : Client).

Definition handled (v : Verdict) : bool :=
  match v with TooMany _ => false | _ => true end.

Section Limiter.
Context {cfg : JWTService.Config}.

Definition getUserFromRequest (req : NextRequest) (now : Z) : option Claimed :=
  match extractTokenFromRequest req with
  | None => None
  | Some token =>
      if no_token (Some token) then None
      else
        match JWTService.verifyAccessToken token now with
        | inl _ => None
        | inr payload =>
            Some (match Jwt.body payload with
                  | AccessBody userId email role =>
                      mkClaimed (Some userId) (Some email) (Some role)
                  | RefreshBody _ => mkClaimed None None None
                  end)
        end
  end.

Definition getClientIdentifier (req : ClientRequest) (now : Z) : string :=
  match getUserFromRequest (request req) now with
  | Some user =>
      "user:" ++ match claimed_id user with Some id => id | None => "undefined" end
  | None =>
      let ip :=
        match x_forwarded_for req with
        | Some forwarded =>
            if Js.falsy forwarded then ip req
            else Some (Js.trim (nth 0 (Js.split "," forwarded) EmptyString))
        | None => ip req
        end in
      "ip:" ++ match ip with
               | Some a => if Js.falsy a then "unknown" else a
               | None => "unknown"
               end
  end.

(** The synchronous part of the limiter, up to the call of the handler:
    the verdict on the request of [clientId] at [now] and the map it
    leaves. *)
Definition limit (maxRequests windowMs : Z) (clientId : string) (now : Z)
           (requests : Requests) : Verdict * Requests :=
  let requests := cleanup now requests in
  match get clientId requests with
  | None => (Opens, set clientId (mkClient 1 (now + windowMs)) requests)
  | Some client =>
      if resetTime client <? now
      then (Opens, set clientId (mkClient 1 (now + windowMs)) requests)
      else if maxRequests <=? count client
      then (TooMany client, requests)
      else
        let client := mkClient (count client + 1) (resetTime client) in
        (Counted client, set clientId client requests)
  end.

(** The handler that [withRateLimit(maxRequests, windowMs)(handler)] is,
    on the map of its closure.  The headers of a counted request are set
    once the handler has returned. *)
Definition withRateLimit (maxRequests windowMs : Z)
           (handler : ClientRequest -> Prog Db NextResponse)
           (req : ClientRequest) (now : Z) (requests : Requests)
  : Prog Db Limited * Requests :=
  let clientId := getClientIdentifier req now in
  let (verdict, requests) := limit maxRequests windowMs clientId now requests in
  (match verdict with
   | Opens => response <- handler req ;; Return (mkLimited response [])
   | TooMany client =>
       let retryAfter := ceil_seconds (resetTime client - now) in
       Return (mkLimited
         (json (JObj [("error", JStr "Too many requests");
                      ("retryAfter", JNum retryAfter)]) 429)
         [("Retry-After", PasswordService.show retryAfter);
          ("X-RateLimit-Limit", PasswordService.show maxRequests);
          ("X-RateLimit-Remaining", "0");
          ("X-RateLimit-Reset", PasswordService.show (resetTime client))])
   | Counted client =>
       response <- handler req ;;
       Return (mkLimited response
         [("X-RateLimit-Limit", PasswordService.show maxRequests);
          ("X-RateLimit-Remaining", PasswordService.show (maxRequests - count client));
          ("X-RateLimit-Reset", PasswordService.show (resetTime client))])
   end, requests).

(** Requests served one after the other by one limiter: who asked, and
    whether the handler was called. *)
Fixpoint traffic (maxRequests windowMs : Z) (arrivals : list (ClientRequest * Z))
         (requests : Requests) : list (string * bool) :=
  match arrivals with
  | [] => []
  | (req, now) :: rest =>
      let clientId := getClientIdentifier req now in
      let (verdict, requests) := limit maxRequests windowMs clientId now requests in
      (clientId, handled verdict) :: traffic maxRequests windowMs rest requests
  end.

End Limiter.

End Middleware.

(** ** app/api/auth/login/route.ts *)

Module LoginRoute.
Import Jwt Store.

Section WithServices.
Context {kdf : Crypto.Kdf} {cfg : JWTService.Config}.

(** The handler once the body has passed [loginSchema]; [ipAddress] and
    [userAgent] are the header values or ['unknown'], [production] is
    [NODE_ENV === 'production'], [uuid] the id the store generates for
    the refresh-token row. *)
Definition POST (email password : string) (rememberMe : bool)
           (ipAddress userAgent : string) (production : bool)
           (now : Z) (uuid : string) : Prog Db NextResponse :=
  try_catch
    (user <- await (select_user (fun u => Js.eqb (u_email u) (Js.toLowerCase email))) ;;
     match user with
     | None => Return (json (JObj [("error", JStr "Invalid email or password")]) 401)
     | Some user =>
         isLocked <- PasswordService.isUserLocked (u_id user) now ;;
         if isLocked : bool then
           Return (json (JObj [("error", JStr "Account temporarily locked due to too many failed login attempts. Please try again later.");
                               ("code", JStr "ACCOUNT_LOCKED")]) 423)
         else
           isPasswordValid <- settle (PasswordService.verifyPassword password (u_passwordHash user)) ;;
           if negb isPasswordValid then
             PasswordService.recordFailedLogin (u_id user) (Some ipAddress) (Some userAgent) now ;;
             Return (json (JObj [("error", JStr "Invalid email or password")]) 401)
           else if negb (Js.eqb (u_status user) "ACTIVE") then
             Return (json (JObj [("error", JStr "Account is not active");
                                 ("code", JStr "ACCOUNT_INACTIVE")]) 403)
           else
             PasswordService.resetFailedLoginAttempts (u_id user)
               (Some ipAddress) (Some userAgent) now ;;
             tokenPair <- JWTService.createTokenPair (u_id user)
                            (Some userAgent) (Some ipAddress) (Some userAgent) now uuid ;;
             await (update_users (PasswordService.has_id (u_id user)) (set_lastLogin now)) ;;
             let sameSite := if production then "strict" else "lax" in
             let refreshMaxAge :=
               if rememberMe then 30 * 24 * 60 * 60 else 7 * 24 * 60 * 60 in
             Return (mkResponse 200
               (JObj [("user",
                       JObj [("id", JStr (u_id user));
                             ("name", JStr (u_name user));
                             ("email", JStr (u_email user));
                             ("role", JStr (u_role user));
                             ("emailVerified", JBool (u_emailVerified user));
                             ("avatarUrl", jopt (u_avatarUrl user))]);
                      ("tokenPair",
                       JObj [("accessToken", JToken (JWTService.accessToken tokenPair));
                             ("refreshToken", JToken (JWTService.refreshToken tokenPair));
                             ("expiresIn", JNum (JWTService.expiresIn tokenPair))])])
               [mkCookie "access_token" (JWTService.accessToken tokenPair)
                         false production sameSite (JWTService.expiresIn tokenPair);
                mkCookie "refresh_token" (JWTService.refreshToken tokenPair)
                         true production sameSite refreshMaxAge])
     end)
    (fun error => Return (json (JObj [("error", JStr "Login failed")]) 500)).

End WithServices.

End LoginRoute.

(** ** The logout route (the second handler of
       app/api/auth/register/route.ts) *)

Module LogoutRoute.
Import Jwt Store.

(** The answer of both paths: the two cookies are cleared. *)
Definition logged_out (production : bool) : NextResponse :=
  mkResponse 200 (JObj [("message", JStr "Logged out successfully")])
    [mkCookie "access_token" (Malformed EmptyString) false production "strict" 0;
     mkCookie "refresh_token" (Malformed EmptyString) true production "strict" 0].

Section WithStore.
Context {rejections : Rejections}.

(** The function the route hands to [withAuth]; [refreshToken] is the
    value of the [refresh_token] cookie of the request.  [req.user!.id]
    throws when the request carries no user. *)
Definition handler (refreshToken : option Token) (production : bool)
           (req : Middleware.NextRequest) : Prog Db NextResponse :=
  try_catch
    ((if Middleware.no_token refreshToken then Return tt
      else
        match refreshToken, Middleware.user req with
        | Some refreshToken, Some user =>
            JWTService.revokeRefreshToken refreshToken (Some (Middleware.id user))
        | _, _ => Raise (Error "Cannot read properties of undefined (reading 'id')")
        end) ;;
     Return (logged_out production))
    (fun error => Return (logged_out production)).

End WithStore.

End LogoutRoute.

(** ** The refresh route (the handler at the end of db/seed.ts) *)

Module RefreshRoute.
Import Jwt Store.

(** What [await req.json()] and [body.refreshToken] give: an exception
    with its message, or the member, a string when it is there. *)
Inductive JsonBody : Type :=
| Unparsable (message : string)
| Parsed (refreshToken : option Token).

(** [value || 'unknown']. *)
Definition or_unknown (value : option string) : string :=
  match value with
  | Some v => if Js.falsy v then "unknown" else v
  | None => "unknown"
  end.

(** The [catch] block of the handler. *)
Definition refresh_error (production : bool) (error : Thrown) : NextResponse :=
  if Js.includes (message error) "expired"
  then mkResponse 401
         (JObj [("error", JStr "Refresh token expired"); ("code", JStr "TOKEN_EXPIRED")])
         [mkCookie "refresh_token" (Malformed EmptyString) true production "strict" 0]
  else if Js.includes (message error) "invalid" || Js.includes (message error) "not found"
  then json (JObj [("error", JStr "Invalid refresh token")]) 401
  else json (JObj [("error", JStr "Token refresh failed")]) 500.

Section WithConfig.
Context {cfg : JWTService.Config} {rejections : Rejections}.

(** The function the route hands to the limiter; [cookie] is the value of
    the [refresh_token] cookie, [production] is
    [NODE_ENV === 'production'], [now], [later] and [uuid] are those of
    [refreshTokens]. *)
Definition POST (cookie : option Token) (method : string) (body : JsonBody)
           (userAgent forwardedFor ip : option string) (production : bool)
           (now later : Z) (uuid : string) : Prog Db NextResponse :=
  try_catch
    (refreshToken <-
       (if Middleware.no_token cookie && Js.eqb method "POST"
        then match body with
             | Unparsable m => Raise (Error m)
             | Parsed refreshToken => Return refreshToken
             end
        else Return cookie) ;;
     match refreshToken with
     | None => Return (json (JObj [("error", JStr "Refresh token required")]) 401)
     | Some refreshToken =>
         if Middleware.no_token (Some refreshToken)
         then Return (json (JObj [("error", JStr "Refresh token required")]) 401)
         else
           let deviceFingerprint := or_unknown userAgent in
           let ipAddress :=
             match forwardedFor with
             | Some f => if Js.falsy f then or_unknown ip else f
             | None => or_unknown ip
             end in
           tokenPair <- JWTService.refreshTokens refreshToken
                          (Some deviceFingerprint) (Some ipAddress) (Some deviceFingerprint)
                          now later uuid ;;
           let sameSite := if production then "strict" else "lax" in
           Return (mkResponse 200
             (JObj [("tokenPair",
                     JObj [("accessToken", JToken (JWTService.accessToken tokenPair));
                           ("refreshToken", JToken (JWTService.refreshToken tokenPair));
                           ("expiresIn", JNum (JWTService.expiresIn tokenPair))])])
             [mkCookie "access_token" (JWTService.accessToken tokenPair)
                       false production sameSite (JWTService.expiresIn tokenPair);
              mkCookie "refresh_token" (JWTService.refreshToken tokenPair)
                       true production sameSite (7 * 24 * 60 * 60)])
     end)
    (fun error => Return (refresh_error production error)).

End WithConfig.

End RefreshRoute.

(** ** app/api/auth/password/reset/route.ts *)

Module PasswordResetRoute.
Import Jwt Store.

(** A JSON array, as the object of its indices. *)
Fixpoint jarray (from : Z) (items : list string) : list (string * Json) :=
  match items with
  | [] => []
  | item :: rest => (PasswordService.show from, JStr item) :: jarray (from + 1) rest
  end.

(** The [catch] block of the handler, for an error that is no ZodError. *)
Definition reset_error (error : Thrown) : NextResponse :=
  if Js.includes (message error) "Invalid or expired reset token"
  then json (JObj [("error", JStr "Invalid or expired reset token")]) 400
  else if Js.includes (message error) "expired"
  then json (JObj [("error", JStr "Reset token has expired. Please request a new password reset.")]) 400
  else if Js.includes (message error) "not found"
  then json (JObj [("error", JStr "Invalid reset token")]) 400
  else json (JObj [("error", JStr "Password reset failed")]) 500.

Section WithKdf.
Context {kdf : Crypto.Kdf}.

(** The handler once the body has passed [resetPasswordSchema];
    [forwardedFor], [ip] and [userAgent] are the header values and
    [req.ip]. *)
Definition POST (token newPassword : string)
           (forwardedFor ip userAgent : option string)
           (now : Z) (randomBytes : list byte) : Prog Db NextResponse :=
  try_catch
    (let passwordValidation := PasswordService.validatePasswordStrength newPassword in
     if negb (fst passwordValidation)
     then Return (json (JObj [("error", JStr "Password does not meet security requirements");
                              ("details", JObj (jarray 0 (snd passwordValidation)))]) 400)
     else
       PasswordService.resetPassword token newPassword
         (Some match forwardedFor with
               | Some f => if Js.falsy f then RefreshRoute.or_unknown ip else f
               | None => RefreshRoute.or_unknown ip
               end)
         (Some (RefreshRoute.or_unknown userAgent))
         now randomBytes ;;
       Return (json (JObj [("message", JStr "Password reset successfully")]) 200))
    (fun error => Return (reset_error error)).

End WithKdf.

End PasswordResetRoute.

(** ** The calls of the services and the statements they send *)

Module Api.
Import Jwt Store.

(** The [.set({...})] of the updates of [users]. *)
Inductive Setter : (User -> User) -> Prop :=
| setter_failedLogin attempts lockedUntil : Setter (set_failedLogin attempts lockedUntil)
| setter_loginSuccess at_ : Setter (set_loginSuccess at_)
| setter_lastLogin at_ : Setter (set_lastLogin at_)
| setter_passwordReset hash at_ : Setter (set_passwordReset hash at_)
| setter_resetToken token expires at_ : Setter (set_resetToken token expires at_)
| setter_passwordHash hash at_ : Setter (set_passwordHash hash at_).

(** The [.set({...})] of the updates of [refresh_tokens]. *)
Inductive Retirement : (RefreshToken -> RefreshToken) -> Prop :=
| retirement_isActive : Retirement (set_isActive false)
| retirement_used at_ : Retirement (set_used at_).

(** The statements of lib/auth/jwt.ts, lib/auth/password.ts,
    lib/auth/middleware.ts and the routes. *)
Section WithStore.
Context {rejections : Rejections}.

Inductive Statement : forall X : Type, (Db -> X * Db) -> Prop :=
| st_select_user w : Statement _ (select_user w)
| st_update_users w f : Setter f -> Statement _ (update_users w f)
| st_select_refreshToken_by_tokenHash h :
    Statement _ (select_refreshToken_by_tokenHash h)
| st_update_refreshTokens w f : Retirement f -> Statement _ (update_refreshTokens w f)
| st_update_refreshTokens_by_tokenHash h userId f :
    Statement _ (update_refreshTokens_by_tokenHash h userId f)
| st_delete_refreshTokens w : Statement _ (delete_refreshTokens w)
| st_insert_refreshToken r : Statement _ (insert_refreshToken r)
| st_insert_auditLog l : Statement _ (insert_auditLog l).

End WithStore.

Section WithServices.
Context {kdf : Crypto.Kdf} {cfg : JWTService.Config} {rejections : Rejections}.

(** The calls: the methods of the two services, the route handlers, and
    the gates around handlers that are calls themselves or answer without
    the store. *)
Inductive Call : forall A : Type, Prog Db A -> Prop :=
| call_answer A (a : A) : Call A (Return a)
| call_createTokenPair userId fp ip ua now uuid :
    Call _ (JWTService.createTokenPair userId fp ip ua now uuid)
| call_refreshTokens t fp ip ua now later uuid :
    Call _ (JWTService.refreshTokens t fp ip ua now later uuid)
| call_revokeRefreshToken t userId :
    Call _ (JWTService.revokeRefreshToken t userId)
| call_revokeAllRefreshTokens userId :
    Call _ (JWTService.revokeAllRefreshTokens userId)
| call_cleanupExpiredTokens now :
    Call _ (JWTService.cleanupExpiredTokens now)
| call_isUserLocked userId now :
    Call _ (PasswordService.isUserLocked userId now)
| call_recordFailedLogin userId ip ua now :
    Call _ (PasswordService.recordFailedLogin userId ip ua now)
| call_resetFailedLoginAttempts userId ip ua now :
    Call _ (PasswordService.resetFailedLoginAttempts userId ip ua now)
| call_changePassword userId current new ip ua now rnd :
    Call _ (PasswordService.changePassword userId current new ip ua now rnd)
| call_resetPassword token new ip ua now rnd :
    Call _ (PasswordService.resetPassword token new ip ua now rnd)
| call_generatePasswordResetToken email now token :
    Call _ (PasswordService.generatePasswordResetToken email now token)
| call_login email password rememberMe ip ua production now uuid :
    Call _ (LoginRoute.POST email password rememberMe ip ua production now uuid)
| call_refresh cookie method body ua forwardedFor ip production now later uuid :
    Call _ (RefreshRoute.POST cookie method body ua forwardedFor ip production now later uuid)
| call_passwordReset token new forwardedFor ip ua now rnd :
    Call _ (PasswordResetRoute.POST token new forwardedFor ip ua now rnd)
| call_logout cookie production req :
    Call _ (LogoutRoute.handler cookie production req)
| call_withAuth handler req now :
    (forall r, Call _ (handler r)) -> Call _ (Middleware.withAuth handler req now)
| call_withAdmin handler req now :
    (forall r, Call _ (handler r)) -> Call _ (Middleware.withAdmin handler req now).

End WithServices.

End Api.

(** ** Sequences of requests *)

Module Scenario.
Import Jwt Store.

(** What one refresh request brings besides the token, with the two clock
    readings and the row id the store generates while it is served. *)
Record Call : Type := mkCall {
  c_deviceFingerprint : option string;
  c_ipAddress : option string;
  c_userAgent : option string;
  c_now : Z;
  c_later : Z;
  c_uuid : string
}.

Section WithConfig.
Context {cfg : JWTService.Config} {rejections : Rejections}.

Definition refresh (t : Token) (c : Call) : Prog Db JWTService.TokenPair :=
  JWTService.refreshTokens t (c_deviceFingerprint c) (c_ipAddress c) (c_userAgent c)
                           (c_now c) (c_later c) (c_uuid c).

(** The same token presented in one request after the other. *)
Fixpoint refresh_calls (t : Token) (calls : list Call) (db : Db)
  : list (Settled JWTService.TokenPair) :=
  match calls with
  | [] => []
  | c :: rest =>
      let (r, db') := run (refresh t c) db in
      r :: refresh_calls t rest db'
  end.

(** The pair issued to [user] at [now]. *)
Definition pair_for (user : User) (now : Z) : JWTService.TokenPair :=
  {| JWTService.accessToken :=
       JWTService.generateAccessToken (u_id user) (u_email user) (u_role user) now;
     JWTService.refreshToken := JWTService.generateRefreshToken now;
     JWTService.expiresIn := 900 |}.

(** The error a refresh request for [t] at [now] ends with: the one of
    the signature check, or the one the store rejects the look-up with. *)
Definition refusal (t : Token) (now : Z) : Thrown :=
  match JWTService.verifyRefreshToken t now with
  | inr _ => select_rejected (JWTService.hashToken t)
  | inl _ => Error "Invalid or expired refresh token"
  end.

End WithConfig.

(** What one login request brings, with the clock reading and the row id
    the store generates while it is served. *)
Record Attempt : Type := mkAttempt {
  a_password : string;
  a_rememberMe : bool;
  a_ipAddress : string;
  a_userAgent : string;
  a_now : Z;
  a_uuid : string
}.

Section WithServices.
Context {kdf : Crypto.Kdf} {cfg : JWTService.Config}.

(** [production] is [NODE_ENV === 'production']. *)
Variable production : bool.

Definition login (email : string) (a : Attempt) : Prog Db NextResponse :=
  LoginRoute.POST email (a_password a) (a_rememberMe a) (a_ipAddress a) (a_userAgent a)
                  production (a_now a) (a_uuid a).

(** Login requests for one email address, one after the other. *)
Fixpoint logins (email : string) (attempts : list Attempt) (db : Db)
  : list (Settled NextResponse) * Db :=
  match attempts with
  | [] => ([], db)
  | a :: rest =>
      let (r, db') := run (login email a) db in
      let (rs, db'') := logins email rest db' in
      (r :: rs, db'')
  end.

End WithServices.

(** The two answers of the login route that matter below. *)
Definition invalid_credentials : NextResponse :=
  json (JObj [("error", JStr "Invalid email or password")]) 401.

Definition account_locked : NextResponse :=
  json (JObj [("error", JStr "Account temporarily locked due to too many failed login attempts. Please try again later.");
              ("code", JStr "ACCOUNT_LOCKED")]) 423.

End Scenario.

(** ** Sample data

    Concrete stores and primitives on which the theorems below are
    exercised.  [sample_kdf] is a stand-in for the hash primitives (the
    theorems hold for every [Kdf]). *)

Module Sample.
Import Jwt Store.

Definition sample_kdf : Crypto.Kdf := {|
  Crypto.sha512 := fun bs => firstn 64 bs;
  Crypto.pbkdf2_rounds := fun key salt _ => firstn 64 (salt ++ key)
|}.

Definition config : JWTService.Config := JWTService.default_config.

(** The answer of a PostgreSQL server to the two statements that have
    nothing before the [=]: a syntax error. *)
Definition syntax_error : Thrown :=
  Error ("syntax error at or near " ++ String "034" ("=" ++ String "034" "")).

Definition rejections : Rejections := {|
  select_rejected := fun _ => syntax_error;
  update_rejected := fun _ _ => syntax_error
|}.

(** The digest of 'Password1!' with the salt byte 00. *)
Definition digest_of_Password1 : string :=
  Eval vm_compute in
    match PasswordService.hashPassword (kdf := sample_kdf) "Password1!" [x00] with
    | Resolved digest => digest
    | Rejected _ => EmptyString
    end.

Definition ann : User := {|
  u_id := "u1"; u_email := "ann@example.com";
  u_passwordHash := digest_of_Password1;
  u_name := "Ann"; u_role := "USER"; u_status := "ACTIVE";
  u_avatarUrl := None; u_lastLoginAt := None; u_emailVerified := true;
  u_emailVerificationToken := None;
  u_passwordResetToken := None; u_passwordResetExpires := None;
  u_failedLoginAttempts := 0; u_lockedUntil := None;
  u_createdAt := 0; u_updatedAt := 0 |}.

Definition bob : User := {|
  u_id := "u2"; u_email := "bob@example.com"; u_passwordHash := "x";
  u_name := "Bob"; u_role := "ADMIN"; u_status := "SUSPENDED";
  u_avatarUrl := None; u_lastLoginAt := None; u_emailVerified := true;
  u_emailVerificationToken := None;
  u_passwordResetToken := Some "VDE="; u_passwordResetExpires := Some 3600000;
  u_failedLoginAttempts := 0; u_lockedUntil := None;
  u_createdAt := 0; u_updatedAt := 0 |}.

(** Ann and Bob, no token issued yet. *)
Definition db0 : Db := mkDb [ann; bob] [] [].

(** Ann has logged in at 1000 ms: one active refresh token, [t1]. *)
Definition t1 : Token := JWTService.generateRefreshToken (cfg := config) 1000.

Definition db1 : Db :=
  snd (run (JWTService.createTokenPair (cfg := config) "u1" None None None 1000 "r1") db0).

(** Refresh requests at 5 s, at 6 s, and after the seven days of [t1]. *)
Definition call5 : Scenario.Call := Scenario.mkCall None None None 5000 5002 "r2".
Definition call6 : Scenario.Call := Scenario.mkCall None None None 6000 6002 "r3".
Definition call_late : Scenario.Call :=
  Scenario.mkCall None None None 700000000 700000002 "r4".

(** Dora, whose id has the syntax of the ids the store generates. *)
Definition dora : User := {|
  u_id := "3f2a9c1e-5b7d-4e8a-9c0b-1d2e3f4a5b6c"; u_email := "dora@example.com";
  u_passwordHash := digest_of_Password1;
  u_name := "Dora"; u_role := "USER"; u_status := "ACTIVE";
  u_avatarUrl := None; u_lastLoginAt := None; u_emailVerified := true;
  u_emailVerificationToken := None;
  u_passwordResetToken := None; u_passwordResetExpires := None;
  u_failedLoginAttempts := 0; u_lockedUntil := None;
  u_createdAt := 0; u_updatedAt := 0 |}.

Definition db_dora : Db := mkDb [ann; bob; dora] [] [].




(** Five wrong guesses at Ann's password, one per second, and her own
    password an hour later. *)
Definition guess (n : Z) : Scenario.Attempt :=
  Scenario.mkAttempt ("guess" ++ PasswordService.show n) false "10.0.0.9" "curl"
                     (1000 * n) ("r" ++ PasswordService.show n).

Definition guesses : list Scenario.Attempt := map guess [1; 2; 3; 4; 5].

Definition an_hour_later : Scenario.Attempt :=
  Scenario.mkAttempt "Password1!" false "10.0.0.1" "firefox" 3605000 "r6".

Definition whoami (req : Middleware.NextRequest) : Prog Db NextResponse :=
  Return (json (JObj [("id", match Middleware.user req with
                             | Some u => JStr (Middleware.id u)
                             | None => JUndefined
                             end)]) 200).

(** An access token issued to Ann while she was an administrator, and
    the request that carries it. *)
Definition admin_token_of_ann : Token :=
  JWTService.generateAccessToken (cfg := config) "u1" "ann@example.com" "ADMIN" 1000.

Definition admin_request_of_ann : Middleware.NextRequest :=
  Middleware.mkRequest (Some (Middleware.Bearer admin_token_of_ann)) None None.

(** Two clients without token, told apart by [X-Forwarded-For], and four
    arrivals within one minute. *)
Definition visitor : Middleware.ClientRequest :=
  Middleware.mkClientRequest (Middleware.mkRequest None None None)
                             (Some "203.0.113.7, 10.0.0.1") None.

Definition other_visitor : Middleware.ClientRequest :=
  Middleware.mkClientRequest (Middleware.mkRequest None None None)
                             (Some "198.51.100.2") (Some "10.0.0.1").

Definition arrivals : list (Middleware.ClientRequest * Z) :=
  [(visitor, 1000); (visitor, 2000); (other_visitor, 2500); (visitor, 3000)].

(** Carol's stored digest is not one that [hashPassword] made. *)
Definition carol : User := {|
  u_id := "u3"; u_email := "carol@example.com"; u_passwordHash := "not-a-hash";
  u_name := "Carol"; u_role := "USER"; u_status := "ACTIVE";
  u_avatarUrl := None; u_lastLoginAt := None; u_emailVerified := false;
  u_emailVerificationToken := None;
  u_passwordResetToken := None; u_passwordResetExpires := None;
  u_failedLoginAttempts := 0; u_lockedUntil := None;
  u_createdAt := 0; u_updatedAt := 0 |}.

Definition db_carol : Db := mkDb [ann; bob; carol] [] [].

(** Ann is locked out by the five guesses and asks for a reset link at
    10 s. *)
Definition db_locked : Db :=
  snd (Scenario.logins (kdf := sample_kdf) (cfg := config) false
         "ann@example.com" guesses db0).

Definition db_reset_requested : Db :=
  snd (run (PasswordService.generatePasswordResetToken "ann@example.com" 10000 "VDI=")
           db_locked).

End Sample.

(* ================================================================== *)
(** * Theorems *)
(* ================================================================== *)

Import Jwt Store.

(** ** The string functions on examples *)

Example split_fields : Js.split ":" "ab:cd:100000" = ["ab"; "cd"; "100000"].
Proof. reflexivity. Qed.

Example split_without_separator : Js.split ":" "not-a-hash" = ["not-a-hash"].
Proof. reflexivity. Qed.

Example split_trailing : Js.split ":" "a:" = ["a"; ""].
Proof. reflexivity. Qed.

Example parseInt_examples :
  Js.parseInt (Some "100000") = Some 100000 /\ Js.parseInt (Some " -12px") = Some (-12)
  /\ Js.parseInt (Some "many") = None /\ Js.parseInt None = None.
Proof. repeat split. Qed.

Example includes_is_case_sensitive :
  Js.includes "Invalid access token" "invalid" = false
  /\ Js.includes "Access token expired" "expired" = true.
Proof. split; reflexivity. Qed.

Example hex_of_bytes : Crypto.hex [x00; x0f; xa5; xff] = "000fa5ff".
Proof. reflexivity. Qed.

Example strength_examples :
  fst (PasswordService.validatePasswordStrength "Password1!") = true
  /\ snd (PasswordService.validatePasswordStrength "password")
     = ["Password must contain at least one uppercase letter";
        "Password must contain at least one number";
        "Password must contain at least one special character";
        "Password is too common. Please choose a stronger password"].
Proof. split; reflexivity. Qed.

(** ** Programs *)

Lemma run_bind {St A B} (p : Prog St A) (f : A -> Prog St B) (s : St) :
  run (bind p f) s =
  match run p s with
  | (Resolved a, s') => run (f a) s'
  | (Rejected e, s') => (Rejected e, s')
  end.
Proof.
  revert s. induction p as [a | e | X stmt k IH]; intro s; simpl; try reflexivity.
  destruct (stmt s) as [x s']. apply IH.
Qed.

Lemma run_try_catch {St A} (p : Prog St A) (h : Thrown -> Prog St A) (s : St) :
  run (try_catch p h) s =
  match run p s with
  | (Resolved a, s') => (Resolved a, s')
  | (Rejected e, s') => run (h e) s'
  end.
Proof.
  revert s. induction p as [a | e | X stmt k IH]; intro s; simpl; try reflexivity.
  destruct (stmt s) as [x s']. apply IH.
Qed.

Lemma run_await {St X} (stmt : St -> X * St) (s : St) :
  run (await stmt) s = (Resolved (fst (stmt s)), snd (stmt s)).
Proof. unfold await; simpl. destruct (stmt s); reflexivity. Qed.

Lemma run_await_checked {St X} (stmt : St -> (Thrown + X) * St) (s : St) :
  run (await_checked stmt) s =
  match stmt s with
  | (inl e, s') => (Rejected e, s')
  | (inr x, s') => (Resolved x, s')
  end.
Proof. unfold await_checked; simpl. destruct (stmt s) as [[e | x] s']; reflexivity. Qed.

Lemma Resolved_inj {A} (a b : A) : Resolved a = Resolved b -> a = b.
Proof. intro H. injection H as H. exact H. Qed.

(** ** The store *)

Lemma eqb_true_iff (a b : string) : Js.eqb a b = true <-> a = b.
Proof. unfold Js.eqb. destruct (string_dec a b); split; congruence. Qed.

Lemma eqb_false_iff (a b : string) : Js.eqb a b = false <-> a <> b.
Proof. unfold Js.eqb. destruct (string_dec a b); split; congruence. Qed.

Lemma eqb_refl (a : string) : Js.eqb a a = true.
Proof. apply eqb_true_iff; reflexivity. Qed.

Lemma find_all_false {A} (f : A -> bool) (l : list A) :
  (forall x, In x l -> f x = false) -> find f l = None.
Proof.
  induction l as [| a l IH]; intro H; simpl; [ reflexivity | ].
  rewrite (H a (or_introl eq_refl)). apply IH. intros x Hx. apply H. right. exact Hx.
Qed.

Lemma insert_accepted (r : RefreshToken) db :
  ~ In (rt_id r) (map rt_id (refreshTokens db)) ->
  ~ In (rt_token r) (map rt_token (refreshTokens db)) ->
  insert_refreshToken r db
  = (inr tt, with_refreshTokens db (refreshTokens db ++ [stored r])).
Proof.
  intros Hid Htoken. unfold insert_refreshToken. cbv zeta.
  replace (existsb (fun x => Js.eqb (rt_id x) (rt_id r)) (refreshTokens db)) with false.
  2: { symmetry. apply not_true_is_false. intro E. apply Hid.
       apply existsb_exists in E. destruct E as [x [Hx E]].
       apply eqb_true_iff in E. rewrite <- E. apply in_map. exact Hx. }
  replace (existsb (fun x => if Token_dec (rt_token x) (rt_token r) then true else false)
                   (refreshTokens db)) with false.
  2: { symmetry. apply not_true_is_false. intro E. apply Htoken.
       apply existsb_exists in E. destruct E as [x [Hx E]].
       destruct (Token_dec (rt_token x) (rt_token r)) as [Ht | ]; [ | discriminate ].
       rewrite <- Ht. apply in_map. exact Hx. }
  reflexivity.
Qed.

Lemma insert_refused (r : RefreshToken) db :
  ~ In (rt_id r) (map rt_id (refreshTokens db)) ->
  In (rt_token r) (map rt_token (refreshTokens db)) ->
  insert_refreshToken r db = (inl (DatabaseError "refresh_tokens_token_unique"), db).
Proof.
  intros Hid Htoken. unfold insert_refreshToken. cbv zeta.
  replace (existsb (fun x => Js.eqb (rt_id x) (rt_id r)) (refreshTokens db)) with false.
  2: { symmetry. apply not_true_is_false. intro E. apply Hid.
       apply existsb_exists in E. destruct E as [x [Hx E]].
       apply eqb_true_iff in E. rewrite <- E. apply in_map. exact Hx. }
  replace (existsb (fun x => if Token_dec (rt_token x) (rt_token r) then true else false)
                   (refreshTokens db)) with true; [ reflexivity | ].
  symmetry. apply existsb_exists. apply in_map_iff in Htoken.
  destruct Htoken as [x [Hx Hin]]. exists x. split; [ exact Hin | ].
  destruct (Token_dec (rt_token x) (rt_token r)) as [ | N]; [ reflexivity | contradiction ].
Qed.

(** ** Issuing a token pair *)

Section Issuing.
Context {cfg : JWTService.Config}.

(** The pair and the row of a call that the store accepts. *)
Lemma createTokenPair_accepted userId fp ip ua now uuid db user :
  find (fun u => Js.eqb (u_id u) userId) (users db) = Some user ->
  ~ In uuid (map rt_id (refreshTokens db)) ->
  ~ In (JWTService.generateRefreshToken now) (map rt_token (refreshTokens db)) ->
  exists entry,
    run (JWTService.createTokenPair userId fp ip ua now uuid) db
    = (Resolved (Scenario.pair_for user now),
       {| users := users db;
          refreshTokens :=
            refreshTokens db ++
            [{| rt_id := uuid;
                rt_userId := u_id user;
                rt_token := JWTService.generateRefreshToken now;
                rt_tokenHash := None;
                rt_deviceFingerprint := fp;
                rt_expiresAt := now + 7 * 24 * 60 * 60 * 1000;
                rt_isActive := true;
                rt_lastUsedAt := None;
                rt_createdAt := now;
                rt_ipAddress := ip;
                rt_userAgent := ua |}];
          auditLogs := auditLogs db ++ [entry] |})
    /\ al_action entry = "TOKEN_REFRESH_CREATED"
    /\ al_actorId entry = Some userId.
Proof.
  intros Hfind Hid Htoken. unfold JWTService.createTokenPair.
  rewrite run_bind, run_await. unfold select_user at 1 2. cbn [fst snd].
  rewrite Hfind. cbv zeta. rewrite run_bind, run_await_checked.
  rewrite insert_accepted; [ | exact Hid | exact Htoken ].
  rewrite run_bind. unfold JWTService.createAuditLog. rewrite run_await.
  cbn [fst snd insert_auditLog run]. eexists. repeat split.
Qed.

(** C7.  What [createTokenPair] does, for a user id of the syntax of a
    uuid.  Without a user of that id it fails with 'User not found' and the
    store is as before.  With one, and when the store accepts the new row
    (its id and its token are not there yet), it returns the access token of
    the user's id, email and role, the refresh token signed at [now] and
    [expiresIn] 900, writes the audit entry TOKEN_REFRESH_CREATED, and
    inserts one active row that expires 7 days after [now]; that row holds
    the refresh token itself and no digest: [token_hash] is NULL, the
    [tokenHash] of the values being no column of the table object. *)
Theorem createTokenPair_stores_no_digest userId fp ip ua now uuid db :
  is_uuid userId = true ->
  ((forall u, In u (users db) -> u_id u <> userId) ->
   run (JWTService.createTokenPair userId fp ip ua now uuid) db
   = (Rejected (Error "User not found"), db))
  /\ (forall user,
        find (fun u => Js.eqb (u_id u) userId) (users db) = Some user ->
        ~ In uuid (map rt_id (refreshTokens db)) ->
        ~ In (JWTService.generateRefreshToken now) (map rt_token (refreshTokens db)) ->
        exists entry,
          run (JWTService.createTokenPair userId fp ip ua now uuid) db
          = (Resolved {| JWTService.accessToken :=
                           JWTService.generateAccessToken
                             (u_id user) (u_email user) (u_role user) now;
                         JWTService.refreshToken := JWTService.generateRefreshToken now;
                         JWTService.expiresIn := 900 |},
             {| users := users db;
                refreshTokens :=
                  refreshTokens db ++
                  [{| rt_id := uuid;
                      rt_userId := u_id user;
                      rt_token := JWTService.generateRefreshToken now;
                      rt_tokenHash := None;
                      rt_deviceFingerprint := fp;
                      rt_expiresAt := now + 7 * 24 * 60 * 60 * 1000;
                      rt_isActive := true;
                      rt_lastUsedAt := None;
                      rt_createdAt := now;
                      rt_ipAddress := ip;
                      rt_userAgent := ua |}];
                auditLogs := auditLogs db ++ [entry] |})
          /\ al_action entry = "TOKEN_REFRESH_CREATED"
          /\ al_actorId entry = Some userId).
Proof.
  intros _. split.
  - intro Hno. unfold JWTService.createTokenPair.
    rewrite run_bind, run_await. unfold select_user at 1 2. cbn [fst snd].
    rewrite (find_all_false _ (users db)); [ reflexivity | ].
    intros u Hu. apply eqb_false_iff. auto.
  - intros user Hfind Hid Htok.
    apply createTokenPair_accepted; assumption.
Qed.

(** X24.  The refresh token is a function of the clock second it is
    signed in and of nothing else.  While a row holds the token of some
    second, [createTokenPair] in that second, for whatever existing user, is
    refused by the unique constraint on [token] and leaves the store as it
    was: one pair at most is issued per second, for all users together. *)
Theorem one_pair_per_second userId fp ip ua (now m : Z) uuid db user :
  find (fun u => Js.eqb (u_id u) userId) (users db) = Some user ->
  In (JWTService.generateRefreshToken m) (map rt_token (refreshTokens db)) ->
  clockTimestamp now = clockTimestamp m ->
  ~ In uuid (map rt_id (refreshTokens db)) ->
  run (JWTService.createTokenPair userId fp ip ua now uuid) db
  = (Rejected (DatabaseError "refresh_tokens_token_unique"), db).
Proof.
  intros Hfind Hheld Hsecond Hid.
  assert (Hsame : JWTService.generateRefreshToken now = JWTService.generateRefreshToken m).
  { unfold JWTService.generateRefreshToken, Jwt.sign. rewrite Hsecond. reflexivity. }
  unfold JWTService.createTokenPair.
  rewrite run_bind, run_await. unfold select_user at 1 2. cbn [fst snd].
  rewrite Hfind. cbv zeta. rewrite run_bind, run_await_checked.
  rewrite insert_refused; [ reflexivity | exact Hid | ].
  cbn [rt_token]. rewrite Hsame. exact Hheld.
Qed.

End Issuing.

(** The theorem at work: a pair for Dora at 2 s, in a store that holds no
    token yet; the digest is not stored. *)
Lemma createTokenPair_stores_no_digest_witness :
  fst (run (JWTService.createTokenPair (cfg := Sample.config)
              "3f2a9c1e-5b7d-4e8a-9c0b-1d2e3f4a5b6c" None None None 2000 "r2") Sample.db_dora)
  = Resolved {| JWTService.accessToken :=
                  JWTService.generateAccessToken (cfg := Sample.config)
                    "3f2a9c1e-5b7d-4e8a-9c0b-1d2e3f4a5b6c" "dora@example.com" "USER" 2000;
                JWTService.refreshToken :=
                  JWTService.generateRefreshToken (cfg := Sample.config) 2000;
                JWTService.expiresIn := 900 |}
  /\ map rt_tokenHash
       (refreshTokens (snd (run (JWTService.createTokenPair (cfg := Sample.config)
                                   "3f2a9c1e-5b7d-4e8a-9c0b-1d2e3f4a5b6c" None None None
                                   2000 "r2") Sample.db_dora)))
     = [None].
Proof.
  destruct (proj2 (createTokenPair_stores_no_digest (cfg := Sample.config)
                     "3f2a9c1e-5b7d-4e8a-9c0b-1d2e3f4a5b6c" None None None 2000 "r2"
                     Sample.db_dora eq_refl) Sample.dora)
    as [entry [E _]].
  - reflexivity.
  - intros [].
  - intros [].
  - rewrite E. split; reflexivity.
Defined.

(** The theorem at work: Ann holds the token of the second 1; Bob asks for
    a pair half a second after her. *)
Lemma one_pair_per_second_witness :
  run (JWTService.createTokenPair (cfg := Sample.config) "u2" None None None 1500 "r2")
      Sample.db1
  = (Rejected (DatabaseError "refresh_tokens_token_unique"), Sample.db1).
Proof.
  apply (one_pair_per_second (cfg := Sample.config) "u2" None None None 1500 1000 "r2"
           Sample.db1 Sample.bob).
  - reflexivity.
  - vm_compute. left. reflexivity.
  - reflexivity.
  - vm_compute. intros [H | []]. discriminate.
Defined.

(** ** Refreshing *)

Section Refreshing.
Context {cfg : JWTService.Config} {rejections : Rejections}.

(** The pair of a call that resolved. *)
Lemma createTokenPair_resolved userId fp ip ua now uuid db pair db1 :
  run (JWTService.createTokenPair userId fp ip ua now uuid) db = (Resolved pair, db1) ->
  exists user,
    find (fun u => Js.eqb (u_id u) userId) (users db) = Some user
    /\ pair = Scenario.pair_for user now.
Proof.
  unfold JWTService.createTokenPair.
  rewrite run_bind, run_await. unfold select_user at 1 2. cbn [fst snd].
  destruct (find _ (users db)) as [user | ]; [ | discriminate ].
  cbv zeta. rewrite run_bind, run_await_checked.
  destruct (insert_refreshToken _ db) as [[e | []] dbi]; [ discriminate | ].
  rewrite run_bind. unfold JWTService.createAuditLog. rewrite run_await.
  cbn [fst snd insert_auditLog run]. intro H. inversion H; subst pair.
  exists user. split; reflexivity.
Qed.

(** Every refresh request ends at the signature check or at the
    look-up, and leaves the store as it was. *)
Lemma refreshTokens_run t fp ip ua now later uuid db :
  run (JWTService.refreshTokens t fp ip ua now later uuid) db
  = (Rejected (Scenario.refusal t now), db).
Proof.
  unfold JWTService.refreshTokens, Scenario.refusal.
  destruct (JWTService.verifyRefreshToken t now) as [e | c]; [ reflexivity | ].
  cbv zeta. rewrite run_bind, run_await_checked. reflexivity.
Qed.

Lemma refreshTokens_step t fp ip ua now later uuid db :
  step (JWTService.refreshTokens t fp ip ua now later uuid) db
  = (Raise (Scenario.refusal t now), db).
Proof.
  unfold JWTService.refreshTokens, Scenario.refusal.
  destruct (JWTService.verifyRefreshToken t now) as [e | c]; reflexivity.
Qed.

Lemma refresh_calls_refused t calls : forall db,
  Scenario.refresh_calls t calls db
  = map (fun c => Rejected (Scenario.refusal t (Scenario.c_now c))) calls.
Proof.
  induction calls as [ | c calls IH]; intro db; [ reflexivity | ].
  cbn [Scenario.refresh_calls map]. unfold Scenario.refresh at 1.
  rewrite refreshTokens_run, IH. reflexivity.
Qed.

(** The signature of the refresh token signed at [m] verifies for seven
    days, up to the second. *)
Lemma verifyRefreshToken_issued m now :
  JWTService.verifyRefreshToken (JWTService.generateRefreshToken m) now
  = if clockTimestamp now <? clockTimestamp m + 604800
    then inr {| body := RefreshBody "refresh";
                iat := clockTimestamp m;
                exp := Some (clockTimestamp m + 604800);
                nbf := None; iss := None; aud := None |}
    else inl (Error "Refresh token expired").
Proof.
  unfold JWTService.verifyRefreshToken, JWTService.generateRefreshToken, Jwt.sign, Jwt.verify.
  destruct (Signature_dec _ _) as [_ | N]; [ | contradiction N; reflexivity ].
  cbn [nbf exp aud iss]. change JWTService.JWT_REFRESH_EXPIRES_IN with 604800.
  destruct (clockTimestamp now <? clockTimestamp m + 604800) eqn:E.
  - apply Z.ltb_lt in E.
    replace (clockTimestamp m + 604800 <=? clockTimestamp now) with false
      by (symmetry; apply Z.leb_gt; lia).
    reflexivity.
  - apply Z.ltb_ge in E.
    replace (clockTimestamp m + 604800 <=? clockTimestamp now) with true
      by (symmetry; apply Z.leb_le; lia).
    reflexivity.
Qed.

(** C1.  No call of [refreshTokens] succeeds, the first one for a token
    that [createTokenPair] has just issued included.  The look-up of the row
    compares the column [tokenHash], which the table object of
    db/schema/auth.ts does not have, with the digest; the store rejects the
    statement and the call throws the store's error.  So every call for an
    issued token, in any sequence of calls, is rejected and leaves the store
    as it was: with the error of the store while the signature of the token
    verifies (seven days from the second of its issue), with 'Invalid or
    expired refresh token' afterwards.  The message 'Refresh token not found
    or inactive' stands behind the look-up and is never reached. *)
Theorem issued_token_is_never_refreshed userId fp ip ua now0 uuid0 (db : Db)
        (pair : JWTService.TokenPair) (db1 : Db) :
  run (JWTService.createTokenPair userId fp ip ua now0 uuid0) db = (Resolved pair, db1) ->
  let t := JWTService.refreshToken pair in
  (forall c db', run (Scenario.refresh t c) db'
                 = (Rejected (Scenario.refusal t (Scenario.c_now c)), db'))
  /\ (forall calls db',
        Scenario.refresh_calls t calls db'
        = map (fun c => Rejected (Scenario.refusal t (Scenario.c_now c))) calls)
  /\ (forall now, clockTimestamp now < clockTimestamp now0 + 604800 ->
                  Scenario.refusal t now = select_rejected (JWTService.hashToken t))
  /\ (forall now, clockTimestamp now0 + 604800 <= clockTimestamp now ->
                  Scenario.refusal t now = Error "Invalid or expired refresh token").
Proof.
  intros Hrun t.
  destruct (createTokenPair_resolved _ _ _ _ _ _ _ _ _ Hrun) as [user [_ Hpair]].
  assert (Ht : t = JWTService.generateRefreshToken now0) by (subst t pair; reflexivity).
  split; [ | split; [ | split ] ].
  - intros c db'. unfold Scenario.refresh. apply refreshTokens_run.
  - intros calls db'. apply refresh_calls_refused.
  - intros now Hnow. unfold Scenario.refusal. rewrite Ht, verifyRefreshToken_issued.
    replace (clockTimestamp now <? clockTimestamp now0 + 604800) with true
      by (symmetry; apply Z.ltb_lt; lia).
    reflexivity.
  - intros now Hnow. unfold Scenario.refusal. rewrite Ht, verifyRefreshToken_issued.
    replace (clockTimestamp now <? clockTimestamp now0 + 604800) with false
      by (symmetry; apply Z.ltb_ge; lia).
    reflexivity.
Qed.

(** Two requests that each end at their first statement, under any
    schedule. *)
Lemma race_of_refused {A B} (ea eb : Thrown) (schedule : list bool) :
  forall (pa : Prog Db A) (pb : Prog Db B) (db : Db),
    (forall s, step pa s = (Raise ea, s)) -> (forall s, run pa s = (Rejected ea, s)) ->
    (forall s, step pb s = (Raise eb, s)) -> (forall s, run pb s = (Rejected eb, s)) ->
    race schedule pa pb db = (Rejected ea, Rejected eb, db).
Proof.
  induction schedule as [ | [ | ] rest IH]; intros pa pb db Hsa Hra Hsb Hrb; cbn [race].
  - rewrite Hra, Hrb. reflexivity.
  - rewrite Hsb. apply IH; auto.
  - rewrite Hsa. apply IH; auto.
Qed.

(** C9.  Two [refreshTokens] calls for the same token in flight together.
    Under every schedule of their statements both calls are rejected and the
    store is left as it was: each call ends at its signature check or at its
    look-up, which the store rejects, so that neither reaches the
    deactivation of the row.  No pair is issued to either call, whether the
    token is valid or not. *)
Theorem racing_refreshes_are_both_refused (schedule : list bool) (t : Token)
        (a b : Scenario.Call) (db : Db) :
  race schedule (Scenario.refresh t a) (Scenario.refresh t b) db
  = (Rejected (Scenario.refusal t (Scenario.c_now a)),
     Rejected (Scenario.refusal t (Scenario.c_now b)), db).
Proof.
  apply race_of_refused; intro s; unfold Scenario.refresh;
    first [ apply refreshTokens_step | apply refreshTokens_run ].
Qed.

End Refreshing.

(** The theorem at work: Ann's token [t1], issued at 1 s, is presented at
    5 s, at 6 s and after its seven days. *)
Lemma issued_token_is_never_refreshed_witness :
  Scenario.refresh_calls (cfg := Sample.config) (rejections := Sample.rejections)
    Sample.t1 [Sample.call5; Sample.call6; Sample.call_late] Sample.db1
  = [Rejected Sample.syntax_error; Rejected Sample.syntax_error;
     Rejected (Error "Invalid or expired refresh token")].
Proof.
  destruct (issued_token_is_never_refreshed (cfg := Sample.config)
              (rejections := Sample.rejections) "u1" None None None 1000 "r1"
              Sample.db0 (Scenario.pair_for (cfg := Sample.config) Sample.ann 1000) Sample.db1
              ltac:(vm_compute; reflexivity))
    as [_ [Hcalls _]].
  cbv zeta in Hcalls.
  change (JWTService.refreshToken (Scenario.pair_for (cfg := Sample.config) Sample.ann 1000))
    with Sample.t1 in Hcalls.
  rewrite Hcalls. reflexivity.
Defined.

(** The theorem at work: Ann's two requests of 5 s and 6 s in flight
    together, the second one first at the store. *)
Lemma racing_refreshes_are_both_refused_witness :
  race [true; false]
       (Scenario.refresh (cfg := Sample.config) (rejections := Sample.rejections)
                         Sample.t1 Sample.call5)
       (Scenario.refresh (cfg := Sample.config) (rejections := Sample.rejections)
                         Sample.t1 Sample.call6) Sample.db1
  = (Rejected Sample.syntax_error, Rejected Sample.syntax_error, Sample.db1).
Proof.
  exact (racing_refreshes_are_both_refused (cfg := Sample.config)
           (rejections := Sample.rejections) [true; false] Sample.t1
           Sample.call5 Sample.call6 Sample.db1).
Defined.

(** ** Revoking every token of a user *)

(** C10.  [revokeAllRefreshTokens u] succeeds, leaves the users and the
    audit log alone, and maps the refresh-token rows one to one: a row of
    another user is unchanged, and a row of [u] keeps every field but
    [isActive], which becomes false. *)
Theorem revokeAllRefreshTokens_frame (userId : string) (db : Db) :
  exists db',
    run (JWTService.revokeAllRefreshTokens userId) db = (Resolved tt, db')
    /\ users db' = users db
    /\ auditLogs db' = auditLogs db
    /\ Forall2 (fun old new =>
                  rt_id new = rt_id old
                  /\ rt_userId new = rt_userId old
                  /\ rt_token new = rt_token old
                  /\ rt_tokenHash new = rt_tokenHash old
                  /\ rt_deviceFingerprint new = rt_deviceFingerprint old
                  /\ rt_expiresAt new = rt_expiresAt old
                  /\ rt_lastUsedAt new = rt_lastUsedAt old
                  /\ rt_createdAt new = rt_createdAt old
                  /\ rt_ipAddress new = rt_ipAddress old
                  /\ rt_userAgent new = rt_userAgent old
                  /\ rt_isActive new = (if string_dec (rt_userId old) userId
                                        then false else rt_isActive old)
                  /\ (rt_userId old <> userId -> new = old))
               (refreshTokens db) (refreshTokens db').
Proof.
  unfold JWTService.revokeAllRefreshTokens.
  eexists. rewrite run_bind, run_await. cbn [fst snd update_refreshTokens run].
  split; [ reflexivity | ]. cbn [users auditLogs refreshTokens with_refreshTokens].
  split; [ reflexivity | ]. split; [ reflexivity | ].
  induction (refreshTokens db) as [| r rows IH]; simpl; constructor; auto.
  unfold Js.eqb. destruct (string_dec (rt_userId r) userId) as [E | NE]; simpl.
  - repeat split; auto. intro H; contradiction.
  - repeat split; auto.
Qed.

(** ** Verifying an access token *)

Section AccessTokens.
Context {cfg : JWTService.Config}.

(** C2 (amended).  [verifyAccessToken] fails with 'Access token expired'
    exactly when the token is well formed, its signature verifies under the
    access secret, its [nbf] claim (if any) is not in the future, and it has
    an [exp] claim that the clock, in whole seconds, has reached.  The
    signature is checked first: a token whose signature does not verify is
    never reported as expired. *)
Theorem verifyAccessToken_expired_iff (s : Token) (now : Z) :
  JWTService.verifyAccessToken s now = inl (Error "Access token expired")
  <-> exists c e,
        s = Jws c (HS256 JWTService.JWT_SECRET c)
        /\ match nbf c with Some n => n <= clockTimestamp now | None => True end
        /\ exp c = Some e
        /\ e <= clockTimestamp now.
Proof.
  unfold JWTService.verifyAccessToken, Jwt.verify. split.
  - destruct s as [raw | c sig]; [ discriminate | ].
    destruct (Signature_dec sig (HS256 JWTService.JWT_SECRET c)) as [Hsig | ];
      [ | discriminate ].
    destruct (nbf c) as [n | ] eqn:Hn.
    + destruct (clockTimestamp now <? n) eqn:Hnbf; [ discriminate | ].
      destruct (exp c) as [e | ] eqn:He.
      * destruct (e <=? clockTimestamp now) eqn:Hexp.
        -- intros _. exists c, e. rewrite Hn. subst sig. repeat split; auto; lia.
        -- destruct (negb _); [ discriminate | ]. destruct (negb _); discriminate.
      * destruct (negb _); [ discriminate | ]. destruct (negb _); discriminate.
    + destruct (exp c) as [e | ] eqn:He.
      * destruct (e <=? clockTimestamp now) eqn:Hexp.
        -- intros _. exists c, e. rewrite Hn. subst sig. repeat split; auto; lia.
        -- destruct (negb _); [ discriminate | ]. destruct (negb _); discriminate.
      * destruct (negb _); [ discriminate | ]. destruct (negb _); discriminate.
  - intros [c [e [Hs [Hn [He Hexp]]]]]. subst s.
    destruct (Signature_dec _ _) as [_ | Hne]; [ | contradiction Hne; reflexivity ].
    rewrite He. destruct (nbf c) as [n | ].
    + replace (clockTimestamp now <? n) with false by (symmetry; apply Z.ltb_ge; lia).
      replace (e <=? clockTimestamp now) with true by (symmetry; apply Z.leb_le; lia).
      reflexivity.
    + replace (e <=? clockTimestamp now) with true by (symmetry; apply Z.leb_le; lia).
      reflexivity.
Qed.

End AccessTokens.

(** C2 as stated fails.  A token whose [exp] (100 s) lies behind the clock
    (200 s) but whose signature was made with another key is reported as
    invalid, not as expired; and a properly signed token is already expired
    at the second of its [exp], not only after it. *)
Lemma expired_forgery_is_invalid :
  JWTService.verifyAccessToken (cfg := Sample.config)
    (Jws (mkClaims (AccessBody "u1" "ann@example.com" "USER") 0 (Some 100) None
                   (Some "epop-platform") (Some "epop-client"))
         (HS256 "not the access secret"
                (mkClaims (AccessBody "u1" "ann@example.com" "USER") 0 (Some 100) None
                          (Some "epop-platform") (Some "epop-client"))))
    200000
  = inl (Error "Invalid access token")
  /\ JWTService.verifyAccessToken (cfg := Sample.config)
       (JWTService.generateAccessToken (cfg := Sample.config)
          "u1" "ann@example.com" "USER" 0)
       900000
     = inl (Error "Access token expired").
Proof. split; vm_compute; reflexivity. Qed.

(** ** The request gate *)

Section AuthGate.
Context {cfg : JWTService.Config}.

Lemma verified_token_is_present token now payload :
  JWTService.verifyAccessToken token now = inr payload ->
  Middleware.no_token (Some token) = false.
Proof.
  destruct token as [raw | c sig]; [ | reflexivity ].
  unfold JWTService.verifyAccessToken; simpl. discriminate.
Qed.


End AuthGate.


(** ** Password digests *)

Lemma lacks_app c a b : Js.lacks c (a ++ b) = Js.lacks c a && Js.lacks c b.
Proof.
  induction a as [| x a IH]; simpl; [ reflexivity | ].
  rewrite IH. apply andb_assoc.
Qed.

Lemma split_field sep s rest :
  Js.lacks sep s = true ->
  Js.split sep (s ++ String sep rest) = s :: Js.split sep rest.
Proof.
  induction s as [| c s IH]; simpl; intro H.
  - rewrite Ascii.eqb_refl. reflexivity.
  - apply andb_true_iff in H. destruct H as [Hc Hs].
    apply negb_true_iff in Hc. rewrite Hc, (IH Hs). reflexivity.
Qed.

Lemma hex_of_byte_lacks_colon b : Js.lacks ":" (Crypto.hex_of_byte b) = true.
Proof. destruct b; reflexivity. Qed.

Lemma hex_lacks_colon bs : Js.lacks ":" (Crypto.hex bs) = true.
Proof.
  induction bs as [| b bs IH]; cbn [Crypto.hex]; [ reflexivity | ].
  rewrite lacks_app, hex_of_byte_lacks_colon, IH. reflexivity.
Qed.

Lemma unhex_hex_of_byte b rest :
  Crypto.unhex_byte (Crypto.hex_of_byte b ++ rest) = Some b.
Proof. destruct b; reflexivity. Qed.

Lemma hex_of_byte_cons b rest :
  exists c1 c2, (Crypto.hex_of_byte b ++ rest)%string = String c1 (String c2 rest).
Proof. unfold Crypto.hex_of_byte. simpl. eauto. Qed.

Lemma hex_injective bs bs' : Crypto.hex bs = Crypto.hex bs' -> bs = bs'.
Proof.
  revert bs'. induction bs as [| b bs IH]; intros [| b' bs'] H; cbn [Crypto.hex] in H.
  - reflexivity.
  - destruct (hex_of_byte_cons b' (Crypto.hex bs')) as [c1 [c2 E]]. rewrite E in H. discriminate.
  - destruct (hex_of_byte_cons b (Crypto.hex bs)) as [c1 [c2 E]]. rewrite E in H. discriminate.
  - assert (b = b').
    { pose proof (unhex_hex_of_byte b (Crypto.hex bs)) as U.
      rewrite H, unhex_hex_of_byte in U. congruence. }
    subst b'. f_equal. apply IH.
    unfold Crypto.hex_of_byte in H. simpl in H. congruence.
Qed.

Lemma not_falsy_app a c rest : Js.falsy (a ++ String c rest) = false.
Proof. destruct a; reflexivity. Qed.

Lemma not_falsy_long s : 8 <= PasswordService.len s -> Js.falsy s = false.
Proof. destruct s; [ unfold PasswordService.len; simpl; lia | reflexivity ]. Qed.

Section Digests.
Context {kdf : Crypto.Kdf}.

(** The digest [hashPassword] makes of [password] with the salt bytes [rnd]. *)
Lemma hashPassword_value password rnd :
  8 <= PasswordService.len password <= 128 ->
  PasswordService.hashPassword password rnd
  = Resolved (Crypto.hex rnd ++ ":"
              ++ Crypto.hex (Crypto.pbkdf2_hmac_sha512 password (Crypto.hex rnd) 100000)
              ++ ":100000")%string.
Proof.
  intros [Hlo Hhi]. unfold PasswordService.hashPassword.
  rewrite (not_falsy_long _ Hlo).
  replace (PasswordService.len password <? 8) with false by (symmetry; apply Z.ltb_ge; lia).
  replace (128 <? PasswordService.len password) with false by (symmetry; apply Z.ltb_ge; lia).
  reflexivity.
Qed.

(** Verification against a digest in the format of [hashPassword]. *)
Lemma verifyPassword_well_formed password salt dk :
  Js.falsy password = false ->
  Js.lacks ":" salt = true ->
  PasswordService.verifyPassword password (salt ++ ":" ++ Crypto.hex dk ++ ":100000")%string
  = Resolved (Js.eqb (Crypto.hex (Crypto.pbkdf2_hmac_sha512 password salt 100000))
                     (Crypto.hex dk)).
Proof.
  intros Hp Hsalt. unfold PasswordService.verifyPassword.
  rewrite Hp. change (":" ++ Crypto.hex dk ++ ":100000")%string
    with (String ":" (Crypto.hex dk ++ String ":" "100000")).
  rewrite not_falsy_app. cbn [orb].
  rewrite (split_field _ _ _ Hsalt), (split_field _ _ _ (hex_lacks_colon dk)).
  reflexivity.
Qed.

End Digests.

Section HashAndVerify.
Context {kdf : Crypto.Kdf}.

(** C4 (amended).  For a password [p] of 8 to 128 characters, whatever the
    salt bytes, [hashPassword] resolves to '<salt>:<derivedKeyHex>:100000',
    [verifyPassword p] of that digest is true, and [verifyPassword p'] of it
    is false for the empty [p'] and for every [p'] whose PBKDF2 key under the
    stored salt differs from the one of [p]; a non-empty [p'] with the same
    derived key is accepted, equal to [p] or not. *)
Theorem hash_then_verify (p : string) (rnd : list byte) :
  8 <= PasswordService.len p <= 128 ->
  exists digest,
    PasswordService.hashPassword p rnd = Resolved digest
    /\ digest = (Crypto.hex rnd ++ ":"
                 ++ Crypto.hex (Crypto.pbkdf2_hmac_sha512 p (Crypto.hex rnd) 100000)
                 ++ ":100000")%string
    /\ PasswordService.verifyPassword p digest = Resolved true
    /\ PasswordService.verifyPassword "" digest = Resolved false
    /\ (forall p',
          Crypto.pbkdf2_hmac_sha512 p' (Crypto.hex rnd) 100000
          <> Crypto.pbkdf2_hmac_sha512 p (Crypto.hex rnd) 100000 ->
          PasswordService.verifyPassword p' digest = Resolved false)
    /\ (forall p',
          p' <> "" ->
          Crypto.pbkdf2_hmac_sha512 p' (Crypto.hex rnd) 100000
          = Crypto.pbkdf2_hmac_sha512 p (Crypto.hex rnd) 100000 ->
          PasswordService.verifyPassword p' digest = Resolved true).
Proof.
  intro Hlen. eexists. split; [ apply hashPassword_value; exact Hlen | ].
  split; [ reflexivity | ].
  assert (Hhex : Js.lacks ":" (Crypto.hex rnd) = true) by apply hex_lacks_colon.
  split; [ | split; [ | split ] ].
  - rewrite verifyPassword_well_formed; auto.
    + rewrite eqb_refl. reflexivity.
    + apply not_falsy_long. lia.
  - reflexivity.
  - intros p' Hne. destruct (string_dec p' "") as [-> | Hp']; [ reflexivity | ].
    rewrite verifyPassword_well_formed; auto.
    + f_equal. apply eqb_false_iff. intro H. apply Hne. apply hex_injective. exact H.
    + apply eqb_false_iff. exact Hp'.
  - intros p' Hp' Heq.
    rewrite verifyPassword_well_formed; auto.
    + rewrite Heq, eqb_refl. reflexivity.
    + apply eqb_false_iff. exact Hp'.
Qed.

(** HMAC pads its key with zero bytes: a password and the same password
    followed by a NUL character are the same key. *)
Lemma trailing_NUL_same_key salt iterations :
  Crypto.pbkdf2_hmac_sha512 ("Password1!" ++ String "000" "") salt iterations
  = Crypto.pbkdf2_hmac_sha512 "Password1!" salt iterations.
Proof. reflexivity. Qed.

Lemma trailing_NUL_verifies rnd digest :
  PasswordService.hashPassword "Password1!" rnd = Resolved digest ->
  PasswordService.verifyPassword ("Password1!" ++ String "000" "") digest = Resolved true.
Proof.
  rewrite hashPassword_value by (unfold PasswordService.len; simpl; lia).
  intro H. apply Resolved_inj in H. rewrite <- H.
  rewrite verifyPassword_well_formed.
  - rewrite trailing_NUL_same_key, eqb_refl. reflexivity.
  - reflexivity.
  - apply hex_lacks_colon.
Qed.

(** C5, at inputs where the code departs from it.  The stored digest does
    not parse ([parseInt] of its third field is [NaN], or the iteration count
    is not positive): [crypto.pbkdf2] throws inside the promise executor and
    the promise that [verifyPassword] returns is rejected; the [catch] of
    [verifyPassword] is not reached and [false] is not returned. *)
Theorem verifyPassword_rejects :
  PasswordService.verifyPassword "Password1!" "not-a-hash"
  = Rejected (RangeError "The value of iterations is out of range")
  /\ PasswordService.verifyPassword "Password1!" "c2FsdA:6b6579:many"
     = Rejected (RangeError "The value of iterations is out of range")
  /\ PasswordService.verifyPassword "Password1!" "c2FsdA:6b6579:0"
     = Rejected (RangeError "The value of iterations is out of range").
Proof. repeat split. Qed.

(** Where [verifyPassword] does return: every digest whose third field
    parses as an iteration count from 1 to 2^31 - 1. *)
Lemma verifyPassword_resolves password storedHash n :
  Js.parseInt (nth_error (Js.split ":" storedHash) 2) = Some n ->
  1 <= n <= 2147483647 ->
  exists b, PasswordService.verifyPassword password storedHash = Resolved b.
Proof.
  intros Hparse [Hlo Hhi]. unfold PasswordService.verifyPassword.
  destruct (Js.falsy password || Js.falsy storedHash); [ eauto | ].
  rewrite Hparse. unfold Crypto.pbkdf2.
  replace (1 <=? n) with true by (symmetry; apply Z.leb_le; lia).
  replace (n <=? 2147483647) with true by (symmetry; apply Z.leb_le; lia).
  simpl. eauto.
Qed.

End HashAndVerify.

(** The theorem at work. *)
Lemma hash_then_verify_witness :
  PasswordService.verifyPassword (kdf := Sample.sample_kdf) "Password1!"
    ("00ff:" ++ Crypto.hex (Crypto.pbkdf2_hmac_sha512 (kdf := Sample.sample_kdf)
                              "Password1!" "00ff" 100000) ++ ":100000")%string
  = Resolved true.
Proof.
  destruct (hash_then_verify (kdf := Sample.sample_kdf) "Password1!" [x00; xff])
    as [digest [_ [E [H _]]]].
  - unfold PasswordService.len. simpl. lia.
  - rewrite E in H. exact H.
Defined.

(** C4 as stated fails: 'Password1!' followed by a NUL character is another
    password, and it verifies against every digest of 'Password1!', whatever
    the hash primitives and the salt. *)
Lemma distinct_password_verifies :
  ("Password1!" ++ String "000" "")%string <> "Password1!"
  /\ (forall (kdf : Crypto.Kdf) (rnd : list byte) (digest : string),
        PasswordService.hashPassword "Password1!" rnd = Resolved digest ->
        PasswordService.verifyPassword ("Password1!" ++ String "000" "") digest
        = Resolved true).
Proof.
  split; [ discriminate | ].
  intros kdf rnd digest. apply trailing_NUL_verifies.
Qed.

(** ** Failed logins and the lock *)

Lemma find_map_preserving {A} (w : A -> bool) (g : A -> A) (l : list A) :
  (forall x, w (g x) = w x) -> find w (map g l) = option_map g (find w l).
Proof.
  intro H. induction l as [| a l IH]; simpl; [ reflexivity | ].
  rewrite H. destruct (w a); [ reflexivity | exact IH ].
Qed.

Lemma find_after_update (w : User -> bool) (id : string) (f : User -> User)
      (us : list User) (u : User) :
  (forall x, w (f x) = w x) ->
  find w us = Some u ->
  u_id u = id ->
  find w (map (fun x => if PasswordService.has_id id x then f x else x) us) = Some (f u).
Proof.
  intros Hw Hfind Hid. rewrite find_map_preserving.
  - rewrite Hfind. simpl. unfold PasswordService.has_id.
    rewrite (proj2 (eqb_true_iff _ _) Hid). reflexivity.
  - intro x. destruct (PasswordService.has_id id x); auto.
Qed.

Section Lockout.
Context {kdf : Crypto.Kdf} {cfg : JWTService.Config}.
Variable production : bool.

(** A user with five or more failed attempts on record is locked, whatever
    the time. *)
Lemma isUserLocked_by_count userId now db u :
  find (PasswordService.has_id userId) (users db) = Some u ->
  5 <= u_failedLoginAttempts u ->
  run (PasswordService.isUserLocked userId now) db = (Resolved true, db).
Proof.
  intros Hfind Hn. unfold PasswordService.isUserLocked.
  rewrite run_bind, run_await. unfold select_user. cbn [fst snd]. rewrite Hfind.
  destruct (match u_lockedUntil u with Some t => now <? t | None => false end);
    [ reflexivity | ].
  replace (5 <=? u_failedLoginAttempts u) with true by (symmetry; apply Z.leb_le; lia).
  reflexivity.
Qed.

Lemma login_when_locked email a db u :
  find (fun x => Js.eqb (u_email x) (Js.toLowerCase email)) (users db) = Some u ->
  find (PasswordService.has_id (u_id u)) (users db) = Some u ->
  5 <= u_failedLoginAttempts u ->
  run (Scenario.login production email a) db = (Resolved Scenario.account_locked, db).
Proof.
  intros Hmail Hid Hn. unfold Scenario.login, LoginRoute.POST.
  rewrite run_try_catch, run_bind, run_await. unfold select_user at 1 2. cbn [fst snd].
  rewrite Hmail, run_bind, (isUserLocked_by_count _ _ _ _ Hid Hn). reflexivity.
Qed.

Lemma login_wrong_password email a db u :
  find (fun x => Js.eqb (u_email x) (Js.toLowerCase email)) (users db) = Some u ->
  find (PasswordService.has_id (u_id u)) (users db) = Some u ->
  u_failedLoginAttempts u < 5 ->
  u_lockedUntil u = None ->
  PasswordService.verifyPassword (Scenario.a_password a) (u_passwordHash u) = Resolved false ->
  exists db',
    let u' := set_failedLogin (u_failedLoginAttempts u + 1)
                (if 5 <=? u_failedLoginAttempts u + 1
                 then Some (Scenario.a_now a + 30 * 60000) else None) u in
    run (Scenario.login production email a) db = (Resolved Scenario.invalid_credentials, db')
    /\ find (fun x => Js.eqb (u_email x) (Js.toLowerCase email)) (users db') = Some u'
    /\ find (PasswordService.has_id (u_id u)) (users db') = Some u'.
Proof.
  intros Hmail Hid Hn Hlock Hwrong. unfold Scenario.login, LoginRoute.POST.
  rewrite run_try_catch, run_bind, run_await. unfold select_user at 1 2. cbn [fst snd].
  rewrite Hmail, run_bind.
  assert (Hfree : run (PasswordService.isUserLocked (u_id u) (Scenario.a_now a)) db
                  = (Resolved false, db)).
  { unfold PasswordService.isUserLocked.
    rewrite run_bind, run_await. unfold select_user. cbn [fst snd]. rewrite Hid, Hlock.
    replace (5 <=? u_failedLoginAttempts u) with false by (symmetry; apply Z.leb_gt; lia).
    reflexivity. }
  rewrite Hfree, run_bind, Hwrong. cbn [settle run negb].
  rewrite run_bind. unfold PasswordService.recordFailedLogin.
  rewrite run_bind, run_await. unfold select_user. cbn [fst snd]. rewrite Hid.
  rewrite run_bind, run_await. cbn [fst snd update_users]. rewrite run_await.
  cbn [fst snd insert_auditLog run].
  eexists. cbv zeta. split; [ reflexivity | ].
  cbn [users with_auditLogs with_users]. split.
  - apply find_after_update; auto.
  - apply (find_after_update (PasswordService.has_id (u_id u))); auto.
Qed.

(** Failed attempts add up, and nothing but their count is consulted once
    it reaches five. *)
Lemma failed_logins_add_up email attempts : forall db u,
  find (fun x => Js.eqb (u_email x) (Js.toLowerCase email)) (users db) = Some u ->
  find (PasswordService.has_id (u_id u)) (users db) = Some u ->
  u_lockedUntil u = None ->
  u_failedLoginAttempts u + Z.of_nat (List.length attempts) <= 5 ->
  Forall (fun a => PasswordService.verifyPassword (Scenario.a_password a) (u_passwordHash u)
                   = Resolved false) attempts ->
  exists db' u',
    Scenario.logins production email attempts db
    = (map (fun _ => Resolved Scenario.invalid_credentials) attempts, db')
    /\ find (fun x => Js.eqb (u_email x) (Js.toLowerCase email)) (users db') = Some u'
    /\ find (PasswordService.has_id (u_id u')) (users db') = Some u'
    /\ u_failedLoginAttempts u' = u_failedLoginAttempts u + Z.of_nat (List.length attempts).
Proof.
  induction attempts as [| a rest IH]; intros db u Hmail Hid Hlock Hn Hwrong.
  - exists db, u. simpl. repeat split; auto. lia.
  - inversion Hwrong as [| ? ? Ha Hrest]; subst.
    cbn [List.length] in Hn.
    destruct (login_wrong_password email a db u Hmail Hid ltac:(lia) Hlock Ha)
      as [db1 [E1 [Hmail1 Hid1]]]. cbv zeta in E1, Hmail1, Hid1.
    set (u1 := set_failedLogin _ _ u) in *.
    cbn [Scenario.logins]. rewrite E1.
    destruct rest as [| b rest'].
    + exists db1, u1. simpl. repeat split; auto.
    + destruct (IH db1 u1) as [db' [u' [E [Hmail' [Hid' Hcount]]]]]; auto.
      * subst u1. simpl.
        replace (5 <=? u_failedLoginAttempts u + 1) with false; [ exact Hlock | ].
        symmetry. apply Z.leb_gt. cbn [List.length] in Hn. lia.
      * subst u1. simpl. cbn [List.length] in Hn |- *. lia.
      * rewrite E. exists db', u'. repeat split; auto.
        rewrite Hcount. subst u1. simpl. cbn [List.length]. lia.
Qed.

(** C3, as the code has it.  After five consecutive failed logins of a
    user who had none on record, every further login for that user is
    answered ACCOUNT_LOCKED (423), with any password and at any time: the
    lock does not end with the 30 minutes of [lockedUntil], because
    [isUserLocked] goes on to test the count of failed attempts, which only a
    successful login or a password reset puts back to zero. *)
Theorem lockout_has_no_end (email : string) (attempts : list Scenario.Attempt)
        (db : Db) (u : User) :
  find (fun x => Js.eqb (u_email x) (Js.toLowerCase email)) (users db) = Some u ->
  find (PasswordService.has_id (u_id u)) (users db) = Some u ->
  u_failedLoginAttempts u = 0 ->
  u_lockedUntil u = None ->
  List.length attempts = 5%nat ->
  Forall (fun a => PasswordService.verifyPassword (Scenario.a_password a) (u_passwordHash u)
                   = Resolved false) attempts ->
  exists db5,
    Scenario.logins production email attempts db
    = (map (fun _ => Resolved Scenario.invalid_credentials) attempts, db5)
    /\ forall a : Scenario.Attempt,
         run (Scenario.login production email a) db5
         = (Resolved Scenario.account_locked, db5).
Proof.
  intros Hmail Hid Hzero Hlock Hlen Hwrong.
  destruct (failed_logins_add_up email attempts db u Hmail Hid Hlock) as
    [db5 [u5 [E [Hmail5 [Hid5 Hcount]]]]]; auto.
  { rewrite Hzero, Hlen. simpl. lia. }
  exists db5. split; [ exact E | ].
  intro a. apply (login_when_locked email a db5 u5); auto.
  rewrite Hcount, Hzero, Hlen. simpl. lia.
Qed.

End Lockout.

(** The theorem at work: five wrong guesses at Ann's password between 1 s
    and 5 s; an hour later, half an hour after [lockedUntil], her own
    password is answered ACCOUNT_LOCKED. *)
Lemma lockout_has_no_end_witness :
  fst (run (Scenario.login (kdf := Sample.sample_kdf) (cfg := Sample.config) false
              "ann@example.com" Sample.an_hour_later)
           (snd (Scenario.logins (kdf := Sample.sample_kdf) (cfg := Sample.config) false
                   "ann@example.com" Sample.guesses Sample.db0)))
  = Resolved Scenario.account_locked.
Proof.
  destruct (lockout_has_no_end (kdf := Sample.sample_kdf) (cfg := Sample.config) false
              "ann@example.com" Sample.guesses Sample.db0 Sample.ann)
    as [db5 [E H]].
  - reflexivity.
  - reflexivity.
  - reflexivity.
  - reflexivity.
  - reflexivity.
  - repeat constructor.
  - rewrite E. cbn [snd]. rewrite H. reflexivity.
Defined.

(** Without the failed attempts the same request is served. *)
Example login_succeeds_without_failures :
  option_map status
    (match fst (run (Scenario.login (kdf := Sample.sample_kdf) (cfg := Sample.config) false
                       "ann@example.com" Sample.an_hour_later) Sample.db0) with
     | Resolved response => Some response
     | Rejected _ => None
     end) = Some 200.
Proof. vm_compute. reflexivity. Qed.

(** The lock itself had ended: [lockedUntil] is 30 minutes after the fifth
    failure. *)
Example lockedUntil_after_five_failures :
  map (fun u => (u_failedLoginAttempts u, u_lockedUntil u))
      (users (snd (Scenario.logins (kdf := Sample.sample_kdf) (cfg := Sample.config) false
                     "ann@example.com" Sample.guesses Sample.db0)))
  = [(5, Some 1805000); (0, None)].
Proof. vm_compute. reflexivity. Qed.

(** ** Password reset *)

Section PasswordReset.
Context {kdf : Crypto.Kdf}.

(** A reset request for a token nobody holds is refused, and the store is
    left as it was. *)
Lemma resetPassword_unknown_token resetToken newPassword ip ua now rnd db :
  find (PasswordService.holds_resetToken resetToken) (users db) = None ->
  run (PasswordService.resetPassword resetToken newPassword ip ua now rnd) db
  = (Rejected (Error "Invalid or expired reset token"), db).
Proof.
  intro Hnone. unfold PasswordService.resetPassword.
  rewrite run_bind, run_await. unfold select_user. cbn [fst snd]. rewrite Hnone.
  reflexivity.
Qed.

(** The users after a reset that succeeded. *)
Lemma resetPassword_success resetToken newPassword ip ua now rnd db db1 :
  run (PasswordService.resetPassword resetToken newPassword ip ua now rnd) db
  = (Resolved tt, db1) ->
  exists user digest,
    find (PasswordService.holds_resetToken resetToken) (users db) = Some user
    /\ PasswordService.hashPassword newPassword rnd = Resolved digest
    /\ users db1
       = map (fun u => if PasswordService.has_id (u_id user) u
                       then set_passwordReset digest now u else u) (users db).
Proof.
  unfold PasswordService.resetPassword.
  rewrite run_bind, run_await. unfold select_user. cbn [fst snd].
  destruct (find _ (users db)) as [user | ]; [ | discriminate ].
  destruct (match u_passwordResetExpires user with Some t => t <? now | None => true end);
    [ discriminate | ].
  rewrite run_bind.
  destruct (PasswordService.hashPassword newPassword rnd) as [digest | e];
    [ | discriminate ].
  cbn [settle run]. rewrite run_bind, run_await. cbn [fst snd update_users].
  rewrite run_bind, run_await. cbn [fst snd insert_auditLog].
  unfold JWTService.revokeAllRefreshTokens. rewrite run_bind, run_await.
  cbn [fst snd update_refreshTokens run]. intro H. inversion H; subst db1; clear H.
  exists user, digest. repeat split.
Qed.

(** C6.  When every user who holds the reset token [T] is the same user
    (tokens are fresh random UUIDs), a successful [resetPassword T] leaves
    nobody holding [T]: every later [resetPassword T], with any new password
    and at any time, fails with 'Invalid or expired reset token' and changes
    nothing. *)
Theorem reset_token_single_use (T newPass : string) ip ua now rnd (db db1 : Db) :
  (forall u v, In u (users db) -> In v (users db) ->
               PasswordService.holds_resetToken T u = true ->
               PasswordService.holds_resetToken T v = true -> u_id u = u_id v) ->
  run (PasswordService.resetPassword T newPass ip ua now rnd) db = (Resolved tt, db1) ->
  forall anotherPass ip' ua' now' rnd',
    run (PasswordService.resetPassword T anotherPass ip' ua' now' rnd') db1
    = (Rejected (Error "Invalid or expired reset token"), db1).
Proof.
  intros Hone Hrun anotherPass ip' ua' now' rnd'.
  destruct (resetPassword_success _ _ _ _ _ _ _ _ Hrun) as [user [digest [Hfind [_ Husers]]]].
  apply resetPassword_unknown_token. rewrite Husers.
  apply find_some in Hfind. destruct Hfind as [Hin Hholds].
  apply find_all_false. intros x Hx. apply in_map_iff in Hx.
  destruct Hx as [u0 [Hx Hu0]].
  destruct (PasswordService.has_id (u_id user) u0) eqn:Hid.
  - subst x. reflexivity.
  - subst x. destruct (PasswordService.holds_resetToken T u0) eqn:Hh; [ | reflexivity ].
    exfalso. pose proof (Hone u0 user Hu0 Hin Hh Hholds) as Heq.
    unfold PasswordService.has_id in Hid. rewrite Heq, eqb_refl in Hid. discriminate.
Qed.

End PasswordReset.

(** The theorem at work: Bob resets his password with the token 'VDE=' at
    1 s; a second reset with the same token at 2 s, well before its expiry
    at one hour, is refused. *)
Lemma reset_token_single_use_witness :
  fst (run (PasswordService.resetPassword (kdf := Sample.sample_kdf)
              "VDE=" "An0ther-Passw0rd" None None 2000 [x01])
           (snd (run (PasswordService.resetPassword (kdf := Sample.sample_kdf)
                        "VDE=" "N3w-Passw0rd!" None None 1000 [x00]) Sample.db0)))
  = Rejected (Error "Invalid or expired reset token").
Proof.
  rewrite (reset_token_single_use (kdf := Sample.sample_kdf)
             "VDE=" "N3w-Passw0rd!" None None 1000 [x00] Sample.db0
             (snd (run (PasswordService.resetPassword (kdf := Sample.sample_kdf)
                          "VDE=" "N3w-Passw0rd!" None None 1000 [x00]) Sample.db0))).
  - reflexivity.
  - intros u v [<- | [<- | []]] [<- | [<- | []]]; try reflexivity; discriminate.
  - vm_compute. reflexivity.
Defined.

(** ** The two kinds of token *)

Section TokenKinds.
Context {cfg : JWTService.Config}.

(** X3.  An access token issued at [now] carries the id, email and role
    it was issued for; it verifies until 900 seconds after the second of its
    issue, and is reported expired from then on. *)
Theorem access_token_lifetime (userId email role : string) (now now' : Z) :
  JWTService.verifyAccessToken (JWTService.generateAccessToken userId email role now) now'
  = if clockTimestamp now' <? clockTimestamp now + 900
    then inr {| body := AccessBody userId email role;
                iat := clockTimestamp now;
                exp := Some (clockTimestamp now + 900);
                nbf := None;
                iss := Some "epop-platform";
                aud := Some "epop-client" |}
    else inl (Error "Access token expired").
Proof.
  unfold JWTService.verifyAccessToken, JWTService.generateAccessToken, Jwt.sign, Jwt.verify.
  destruct (Signature_dec _ _) as [_ | N]; [ | contradiction N; reflexivity ].
  cbn [nbf exp aud iss]. change JWTService.JWT_EXPIRES_IN with 900.
  destruct (clockTimestamp now' <? clockTimestamp now + 900) eqn:E.
  - apply Z.ltb_lt in E.
    replace (clockTimestamp now + 900 <=? clockTimestamp now') with false
      by (symmetry; apply Z.leb_gt; lia).
    reflexivity.
  - apply Z.ltb_ge in E.
    replace (clockTimestamp now + 900 <=? clockTimestamp now') with true
      by (symmetry; apply Z.leb_le; lia).
    reflexivity.
Qed.

(** X4.  With distinct secrets, a refresh token never passes for an access
    token: its signature does not verify under the access secret. *)
Theorem refresh_token_is_no_access_token (now now' : Z) :
  JWTService.JWT_SECRET <> JWTService.JWT_REFRESH_SECRET ->
  JWTService.verifyAccessToken (JWTService.generateRefreshToken now) now'
  = inl (Error "Invalid access token").
Proof.
  intro Hne.
  unfold JWTService.verifyAccessToken, JWTService.generateRefreshToken, Jwt.sign, Jwt.verify.
  destruct (Signature_dec _ _) as [E | _]; [ | reflexivity ].
  exfalso. apply Hne. injection E as E. symmetry. exact E.
Qed.

End TokenKinds.

(** The theorem at work, with the secrets the source falls back to. *)
Lemma refresh_token_is_no_access_token_witness :
  JWTService.verifyAccessToken (cfg := Sample.config) Sample.t1 2000
  = inl (Error "Invalid access token").
Proof.
  apply (refresh_token_is_no_access_token (cfg := Sample.config) 1000 2000).
  discriminate.
Defined.


(** ** Cleaning up *)

Lemma find_filter {A} (w keep : A -> bool) (rows : list A) :
  (forall r, w r = true -> keep r = true) ->
  find w (filter keep rows) = find w rows.
Proof.
  intro Hw. induction rows as [ | r rows IH]; simpl; [ reflexivity | ].
  destruct (keep r) eqn:K; simpl.
  - destruct (w r); [ reflexivity | exact IH ].
  - destruct (w r) eqn:W; [ | exact IH ].
    rewrite (Hw r W) in K. discriminate.
Qed.

(** X7.  [cleanupExpiredTokens] at [now] deletes the rows that are
    inactive and whose expiry lies before [now], and no other: an active
    row stays however old it is, and an inactive row stays until its expiry
    has passed.  A look-up that asks for active rows, by digest or by any
    other condition, finds the same row before and after; users and audit
    log are untouched. *)
Theorem cleanupExpiredTokens_spares_live_rows (now : Z) (db : Db) :
  let db' := snd (run (JWTService.cleanupExpiredTokens now) db) in
  (forall r, In r (refreshTokens db') <->
             In r (refreshTokens db) /\ (rt_isActive r = true \/ now <= rt_expiresAt r))
  /\ (forall w : RefreshToken -> bool,
        (forall r, w r = true -> rt_isActive r = true) ->
        find w (refreshTokens db') = find w (refreshTokens db))
  /\ users db' = users db
  /\ auditLogs db' = auditLogs db.
Proof.
  unfold JWTService.cleanupExpiredTokens, await.
  cbn [run fst snd delete_refreshTokens refreshTokens with_refreshTokens users auditLogs].
  split; [ | split; [ | split; reflexivity ] ].
  - intro r. rewrite filter_In. apply and_iff_compat_l.
    destruct (rt_isActive r); cbn [Bool.eqb andb negb].
    + split; auto.
    + destruct (rt_expiresAt r <? now) eqn:E; cbn [negb].
      * apply Z.ltb_lt in E. split; [ discriminate | intros [H | H]; [ discriminate | lia ] ].
      * apply Z.ltb_ge in E. split; auto.
  - intros w Hw. apply find_filter. intros r W. rewrite (Hw r W). reflexivity.
Qed.

(** ** Requests the gate turns away *)

Section TurnedAway.
Context {cfg : JWTService.Config}.



End TurnedAway.


(** ** The administrators' gate *)

Section AdminGate.
Context {cfg : JWTService.Config}.

(** The gate on a request whose token verifies for an ACTIVE user. *)
Lemma withAuth_active handler req now db token payload user :
  Middleware.extractTokenFromRequest req = Some token ->
  JWTService.verifyAccessToken token now = inr payload ->
  find (fun u => match Middleware.payload_userId payload with
                 | Some userId => Js.eqb (u_id u) userId
                 | None => false
                 end) (users db) = Some user ->
  u_status user = "ACTIVE" ->
  let req' := Middleware.set_user req
                (Middleware.mkIdentity (u_id user) (u_email user) (u_role user)) in
  run (Middleware.withAuth handler req now) db
  = match run (handler req') db with
    | (Resolved response, db') => (Resolved (response, req'), db')
    | (Rejected error, db') => (Resolved (Middleware.auth_error error, req'), db')
    end.
Proof.
  intros Htoken Hverify Hfind Hs req'.
  pose proof (verified_token_is_present _ _ _ Hverify) as Hpresent.
  unfold Middleware.withAuth. rewrite run_try_catch, Htoken, Hpresent, Hverify.
  rewrite run_bind, run_await. unfold select_user. cbn [fst snd]. rewrite Hfind.
  rewrite (proj2 (eqb_true_iff _ _) Hs). cbn [negb]. cbv zeta.
  rewrite run_try_catch, run_bind. fold req'.
  destruct (run (handler req') db) as [[response | error] db']; reflexivity.
Qed.

(** X10.  [withAdmin] decides on the role stored for the user, not on
    the role the token carries: for a verified token of an ACTIVE user, the
    handler runs when the stored role is 'ADMIN', and otherwise the answer
    is 403 'Admin access required', the handler is not called and the store
    is not touched. *)
Theorem withAdmin_checks_stored_role
        (handler : Middleware.NextRequest -> Prog Db NextResponse)
        (req : Middleware.NextRequest) (now : Z) (db : Db)
        (token : Token) (payload : Claims) (user : User) :
  Middleware.extractTokenFromRequest req = Some token ->
  JWTService.verifyAccessToken token now = inr payload ->
  find (fun u => match Middleware.payload_userId payload with
                 | Some userId => Js.eqb (u_id u) userId
                 | None => false
                 end) (users db) = Some user ->
  u_status user = "ACTIVE" ->
  let req' := Middleware.set_user req
                (Middleware.mkIdentity (u_id user) (u_email user) (u_role user)) in
  run (Middleware.withAdmin handler req now) db
  = if string_dec (u_role user) "ADMIN"
    then match run (handler req') db with
         | (Resolved response, db') => (Resolved (response, req'), db')
         | (Rejected error, db') => (Resolved (Middleware.auth_error error, req'), db')
         end
    else (Resolved (json (JObj [("error", JStr "Admin access required")]) 403, req'), db).
Proof.
  intros Htoken Hverify Hfind Hs req'. unfold Middleware.withAdmin.
  rewrite (withAuth_active _ req now db token payload user Htoken Hverify Hfind Hs).
  fold req'. cbn [Middleware.user Middleware.set_user Middleware.role req'].
  destruct (string_dec (u_role user) "ADMIN") as [Hr | Hr].
  - rewrite (proj2 (eqb_true_iff _ _) Hr). reflexivity.
  - rewrite (proj2 (eqb_false_iff _ _) Hr). reflexivity.
Qed.

End AdminGate.

(** The theorem at work: Ann's token still says ADMIN, her row says USER. *)
Lemma withAdmin_checks_stored_role_witness :
  run (Middleware.withAdmin (cfg := Sample.config) Sample.whoami
         Sample.admin_request_of_ann 2000) Sample.db0
  = (Resolved (json (JObj [("error", JStr "Admin access required")]) 403,
               Middleware.set_user Sample.admin_request_of_ann
                 (Middleware.mkIdentity "u1" "ann@example.com" "USER")),
     Sample.db0).
Proof.
  apply (withAdmin_checks_stored_role (cfg := Sample.config) Sample.whoami
           Sample.admin_request_of_ann 2000 Sample.db0 Sample.admin_token_of_ann
           (mkClaims (AccessBody "u1" "ann@example.com" "ADMIN") 1 (Some 901) None
                     (Some "epop-platform") (Some "epop-client"))
           Sample.ann); reflexivity.
Defined.

(** ** The rate limiter *)

Lemma get_set_same key value requests :
  Middleware.get key (Middleware.set key value requests) = Some value.
Proof.
  induction requests as [ | [k v] rest IH]; simpl.
  - rewrite eqb_refl. reflexivity.
  - destruct (Js.eqb k key) eqn:E; simpl; rewrite E; [ reflexivity | exact IH ].
Qed.

Lemma get_set_other key key' value requests :
  key' <> key ->
  Middleware.get key' (Middleware.set key value requests) = Middleware.get key' requests.
Proof.
  intro Hne. induction requests as [ | [k v] rest IH]; simpl.
  - rewrite (proj2 (eqb_false_iff key key')); [ reflexivity | congruence ].
  - destruct (Js.eqb k key) eqn:E; simpl.
    + apply eqb_true_iff in E. subst k.
      rewrite (proj2 (eqb_false_iff key key')); [ reflexivity | congruence ].
    + rewrite IH. reflexivity.
Qed.

Lemma get_cleanup key client now requests :
  Middleware.get key requests = Some client ->
  now <= Middleware.resetTime client ->
  Middleware.get key (Middleware.cleanup now requests) = Some client.
Proof.
  intros Hget Hnow. induction requests as [ | [k v] rest IH]; simpl in *; [ discriminate | ].
  destruct (Js.eqb k key) eqn:E.
  - inversion Hget; subst v.
    replace (Middleware.resetTime client <? now) with false by (symmetry; apply Z.ltb_ge; lia).
    simpl. rewrite E. reflexivity.
  - destruct (negb (Middleware.resetTime v <? now)); simpl; [ rewrite E | ]; auto.
Qed.

(** After the loop that cleans up, no entry of the map is over: the test
    [client.resetTime < now] that follows the look-up never holds. *)
Lemma get_after_cleanup key client now requests :
  Middleware.get key (Middleware.cleanup now requests) = Some client ->
  (Middleware.resetTime client <? now) = false.
Proof.
  induction requests as [ | [k v] rest IH]; simpl; [ discriminate | ].
  destruct (Middleware.resetTime v <? now) eqn:R; simpl; [ exact IH | ].
  destruct (Js.eqb k key); [ | exact IH ].
  intro H. inversion H; subst v. exact R.
Qed.

Lemma limit_same maxRequests windowMs c now requests k R :
  Middleware.get c requests = Some (Middleware.mkClient k R) ->
  now <= R ->
  Middleware.limit maxRequests windowMs c now requests
  = if maxRequests <=? k
    then (Middleware.TooMany (Middleware.mkClient k R), Middleware.cleanup now requests)
    else (Middleware.Counted (Middleware.mkClient (k + 1) R),
          Middleware.set c (Middleware.mkClient (k + 1) R) (Middleware.cleanup now requests)).
Proof.
  intros Hget Hnow. unfold Middleware.limit. cbv zeta.
  rewrite (get_cleanup c _ now requests Hget Hnow). cbn [Middleware.resetTime Middleware.count].
  replace (R <? now) with false by (symmetry; apply Z.ltb_ge; lia).
  reflexivity.
Qed.

Lemma limit_other maxRequests windowMs c c' now requests client :
  c' <> c ->
  Middleware.get c requests = Some client ->
  now <= Middleware.resetTime client ->
  Middleware.get c (snd (Middleware.limit maxRequests windowMs c' now requests)) = Some client.
Proof.
  intros Hne Hget Hnow. pose proof (get_cleanup c client now requests Hget Hnow) as Hc.
  unfold Middleware.limit. cbv zeta.
  destruct (Middleware.get c' (Middleware.cleanup now requests)) as [other | ];
    [ destruct (Middleware.resetTime other <? now);
      [ | destruct (maxRequests <=? Middleware.count other) ] | ];
    cbn [snd]; rewrite ?get_set_other by congruence; exact Hc.
Qed.

Section Budget.
Context {cfg : JWTService.Config}.

(** The requests of [c] while its window runs and its entry counts [k]. *)
Lemma traffic_in_window maxRequests windowMs c R arrivals :
  forall requests k,
    Middleware.get c requests = Some (Middleware.mkClient k R) ->
    Forall (fun arrival => snd arrival <= R) arrivals ->
    let log := filter (fun entry => Js.eqb (fst entry) c)
                      (Middleware.traffic maxRequests windowMs arrivals requests) in
    map snd log
    = repeat true (Nat.min (List.length log) (Z.to_nat (maxRequests - k)))
      ++ repeat false (List.length log - Z.to_nat (maxRequests - k)).
Proof.
  induction arrivals as [ | [req now] rest IH]; intros requests k Hget Hall; [ reflexivity | ].
  inversion Hall as [ | ? ? Hnow Hrest]; subst. cbn [snd] in Hnow.
  cbn [Middleware.traffic].
  destruct (string_dec (Middleware.getClientIdentifier req now) c) as [Hid | Hid].
  - rewrite Hid, (limit_same maxRequests windowMs c now requests k R Hget Hnow).
    destruct (maxRequests <=? k) eqn:Hmax.
    + apply Z.leb_le in Hmax. cbn [filter fst Middleware.handled]. rewrite eqb_refl.
      specialize (IH _ k (get_cleanup c _ now requests Hget Hnow) Hrest). cbv zeta in IH.
      cbn [map snd List.length]. rewrite IH at 1.
      replace (Z.to_nat (maxRequests - k)) with 0%nat by lia.
      rewrite !Nat.min_0_r, !Nat.sub_0_r. reflexivity.
    + apply Z.leb_gt in Hmax. cbn [filter fst Middleware.handled]. rewrite eqb_refl.
      specialize (IH _ (k + 1)
                    (get_set_same c (Middleware.mkClient (k + 1) R)
                                  (Middleware.cleanup now requests)) Hrest).
      cbv zeta in IH.
      cbn [map snd List.length]. rewrite IH at 1.
      replace (Z.to_nat (maxRequests - k)) with (S (Z.to_nat (maxRequests - (k + 1)))) by lia.
      reflexivity.
  - pose proof (limit_other maxRequests windowMs c _ now requests _ Hid Hget Hnow) as Hkeep.
    destruct (Middleware.limit maxRequests windowMs _ now requests) as [verdict requests'].
    cbn [snd] in Hkeep. cbn [filter fst].
    rewrite (proj2 (eqb_false_iff _ _) Hid).
    exact (IH requests' k Hkeep Hrest).
Qed.

End Budget.

Section WindowBudget.
Context {cfg : JWTService.Config}.

(** The handler is called exactly on the verdicts that [handled] marks,
    and the map the limiter leaves is the one of the verdict. *)
Lemma withRateLimit_follows_verdict maxRequests windowMs handler req now requests :
  let verdict := fst (Middleware.limit maxRequests windowMs
                        (Middleware.getClientIdentifier req now) now requests) in
  snd (Middleware.withRateLimit maxRequests windowMs handler req now requests)
  = snd (Middleware.limit maxRequests windowMs
           (Middleware.getClientIdentifier req now) now requests)
  /\ (Middleware.handled verdict = true ->
      exists headers,
        fst (Middleware.withRateLimit maxRequests windowMs handler req now requests)
        = (response <- handler req ;; Return (Middleware.mkLimited response headers)))
  /\ (Middleware.handled verdict = false ->
      exists answer,
        fst (Middleware.withRateLimit maxRequests windowMs handler req now requests)
        = Return answer
        /\ status (Middleware.response answer) = 429).
Proof.
  unfold Middleware.withRateLimit.
  destruct (Middleware.limit maxRequests windowMs _ now requests) as [[ | client | client] rs];
    cbn [fst snd Middleware.handled]; (split; [ reflexivity | split; intro H ]);
    try discriminate H; eexists; try split; reflexivity.
Qed.

(** X11.  One window of the limiter.  A client that has no running
    window when its request arrives at [t0] opens one, and of all its
    requests that arrive until [t0 + windowMs], in whatever order with the
    requests of other clients, the first [maxRequests] reach the handler and
    all later ones are turned away; the request that opens the window
    always reaches the handler, also when [maxRequests] is below one. *)
Theorem rate_limit_budget (maxRequests windowMs : Z)
        (first : Middleware.ClientRequest) (t0 : Z)
        (rest : list (Middleware.ClientRequest * Z)) (requests0 : Middleware.Requests) :
  let c := Middleware.getClientIdentifier first t0 in
  Middleware.get c (Middleware.cleanup t0 requests0) = None ->
  Forall (fun arrival => snd arrival <= t0 + windowMs) rest ->
  let log := filter (fun entry => Js.eqb (fst entry) c)
                    (Middleware.traffic maxRequests windowMs ((first, t0) :: rest) requests0) in
  map snd log
  = repeat true (Nat.min (List.length log) (Z.to_nat (Z.max 1 maxRequests)))
    ++ repeat false (List.length log - Z.to_nat (Z.max 1 maxRequests)).
Proof.
  intros c Hnone Hrest log. subst log. cbn [Middleware.traffic]. fold c.
  unfold Middleware.limit. cbv zeta. rewrite Hnone.
  cbn [filter fst Middleware.handled]. rewrite eqb_refl.
  cbn [map snd List.length].
  pose proof (traffic_in_window maxRequests windowMs c (t0 + windowMs) rest
                (Middleware.set c (Middleware.mkClient 1 (t0 + windowMs))
                                (Middleware.cleanup t0 requests0))
                1 (get_set_same c _ _) Hrest) as H.
  cbv zeta in H. rewrite H at 1.
  replace (Z.to_nat (Z.max 1 maxRequests)) with (S (Z.to_nat (maxRequests - 1))) by lia.
  reflexivity.
Qed.

End WindowBudget.

(** The theorem at work: two requests per minute; the visitor's third
    request is turned away, whatever the other visitor does. *)
Lemma rate_limit_budget_witness :
  map snd (filter (fun entry => Js.eqb (fst entry) "ip:203.0.113.7")
                  (Middleware.traffic (cfg := Sample.config) 2 60000 Sample.arrivals []))
  = [true; true; false].
Proof.
  apply (rate_limit_budget (cfg := Sample.config) 2 60000 Sample.visitor 1000
           (tl Sample.arrivals) []).
  - reflexivity.
  - repeat constructor; vm_compute; discriminate.
Defined.

Section TurnedAwayByLimiter.
Context {cfg : JWTService.Config}.

(** X12.  A request of a client whose entry, after the clean-up, has
    reached [maxRequests] is answered 429 'Too many requests' without a
    call of the handler, and the map is left as the clean-up made it: the
    count does not grow further.  The [retryAfter] of the answer and of the
    [Retry-After] header is the time to the end of the window in seconds,
    rounded up, and is never negative. *)
Theorem too_many_requests_answer (maxRequests windowMs : Z)
        (handler : Middleware.ClientRequest -> Prog Db NextResponse)
        (req : Middleware.ClientRequest) (now : Z) (requests : Middleware.Requests)
        (client : Middleware.Client) :
  Middleware.get (Middleware.getClientIdentifier req now) (Middleware.cleanup now requests)
  = Some client ->
  maxRequests <= Middleware.count client ->
  let retryAfter := Middleware.ceil_seconds (Middleware.resetTime client - now) in
  Middleware.withRateLimit maxRequests windowMs handler req now requests
  = (Return (Middleware.mkLimited
       (json (JObj [("error", JStr "Too many requests");
                    ("retryAfter", JNum retryAfter)]) 429)
       [("Retry-After", PasswordService.show retryAfter);
        ("X-RateLimit-Limit", PasswordService.show maxRequests);
        ("X-RateLimit-Remaining", "0");
        ("X-RateLimit-Reset", PasswordService.show (Middleware.resetTime client))]),
     Middleware.cleanup now requests)
  /\ 0 <= retryAfter
  /\ 1000 * (retryAfter - 1) < Middleware.resetTime client - now <= 1000 * retryAfter.
Proof.
  intros Hget Hmax retryAfter.
  pose proof (get_after_cleanup _ _ _ _ Hget) as Hlive.
  split.
  - unfold Middleware.withRateLimit, Middleware.limit. cbv zeta.
    rewrite Hget, Hlive.
    replace (maxRequests <=? Middleware.count client) with true
      by (symmetry; apply Z.leb_le; exact Hmax).
    reflexivity.
  - apply Z.ltb_ge in Hlive. subst retryAfter. unfold Middleware.ceil_seconds.
    pose proof (Z.div_mod (- (Middleware.resetTime client - now)) 1000 ltac:(lia)).
    pose proof (Z.mod_pos_bound (- (Middleware.resetTime client - now)) 1000 ltac:(lia)).
    lia.
Qed.

End TurnedAwayByLimiter.

(** The theorem at work: the visitor's third request of the minute, at
    3000 ms, in a window that ends at 61000 ms. *)
Lemma too_many_requests_answer_witness :
  fst (Middleware.withRateLimit (cfg := Sample.config) 2 60000
         (fun _ => Return (json (JObj []) 200)) Sample.visitor 3000
         [("ip:203.0.113.7", Middleware.mkClient 2 61000)])
  = Return (Middleware.mkLimited
      (json (JObj [("error", JStr "Too many requests"); ("retryAfter", JNum 58)]) 429)
      [("Retry-After", "58"); ("X-RateLimit-Limit", "2");
       ("X-RateLimit-Remaining", "0"); ("X-RateLimit-Reset", "61000")]).
Proof.
  rewrite (proj1 (too_many_requests_answer (cfg := Sample.config) 2 60000
                    (fun _ => Return (json (JObj []) 200)) Sample.visitor 3000
                    [("ip:203.0.113.7", Middleware.mkClient 2 61000)]
                    (Middleware.mkClient 2 61000) eq_refl ltac:(vm_compute; discriminate))).
  reflexivity.
Defined.

(** ** Password strength *)

Lemma special_lower_char c : PasswordService.special (Js.lower_char c) = PasswordService.special c.
Proof. destruct c as [[] [] [] [] [] [] [] []]; vm_compute; reflexivity. Qed.

Lemma any_special_toLowerCase s :
  PasswordService.any PasswordService.special (Js.toLowerCase s)
  = PasswordService.any PasswordService.special s.
Proof.
  induction s as [ | c s IH]; [ reflexivity | ].
  cbn [Js.toLowerCase PasswordService.any]. rewrite special_lower_char, IH. reflexivity.
Qed.

(** A password of the deny-list, in whatever case, has no special
    character. *)
Lemma common_password_has_no_special password :
  existsb (Js.eqb (Js.toLowerCase password)) PasswordService.commonPasswords = true ->
  PasswordService.any PasswordService.special password = false.
Proof.
  intro H. rewrite <- any_special_toLowerCase.
  apply existsb_exists in H. destruct H as [common [Hin Heq]].
  apply eqb_true_iff in Heq. rewrite Heq.
  unfold PasswordService.commonPasswords in Hin. cbn [In] in Hin.
  repeat (destruct Hin as [<- | Hin]; [ reflexivity | ]). destruct Hin.
Qed.

Lemma validatePasswordStrength_verdict password :
  fst (PasswordService.validatePasswordStrength password)
  = ((8 <=? PasswordService.len password) && (PasswordService.len password <=? 128)
     && PasswordService.any (PasswordService.between 97 122) password
     && PasswordService.any (PasswordService.between 65 90) password
     && PasswordService.any (PasswordService.between 48 57) password
     && PasswordService.any PasswordService.special password)%bool.
Proof.
  unfold PasswordService.validatePasswordStrength. cbv zeta. cbn [fst].
  rewrite (Z.leb_antisym (PasswordService.len password) 8).
  rewrite (Z.leb_antisym 128 (PasswordService.len password)).
  destruct (PasswordService.len password <? 8); cbn [negb andb app]; [ reflexivity | ].
  destruct (128 <? PasswordService.len password); cbn [negb andb app]; [ reflexivity | ].
  destruct (PasswordService.any (PasswordService.between 97 122) password);
    cbn [andb app]; [ | reflexivity ].
  destruct (PasswordService.any (PasswordService.between 65 90) password);
    cbn [andb app]; [ | reflexivity ].
  destruct (PasswordService.any (PasswordService.between 48 57) password);
    cbn [andb app]; [ | reflexivity ].
  destruct (PasswordService.any PasswordService.special password) eqn:S;
    cbn [andb app]; [ | reflexivity ].
  destruct (existsb _ PasswordService.commonPasswords) eqn:C; [ | reflexivity ].
  rewrite (common_password_has_no_special password C) in S. discriminate.
Qed.

(** X13.  The verdict of [validatePasswordStrength] is the conjunction of
    its length and character-class rules: 8 to 128 characters, a lowercase
    letter, an uppercase letter, a digit and a special character.  The
    deny-list of common passwords never changes the verdict, since none of
    its entries, in any letter case, contains a special character; it only
    adds a message to a list that is not empty already. *)
Theorem common_password_list_is_redundant (password : string) :
  fst (PasswordService.validatePasswordStrength password)
  = ((8 <=? PasswordService.len password) && (PasswordService.len password <=? 128)
     && PasswordService.any (PasswordService.between 97 122) password
     && PasswordService.any (PasswordService.between 65 90) password
     && PasswordService.any (PasswordService.between 48 57) password
     && PasswordService.any PasswordService.special password)%bool
  /\ (In "Password is too common. Please choose a stronger password"
         (snd (PasswordService.validatePasswordStrength password)) ->
      In "Password must contain at least one special character"
         (snd (PasswordService.validatePasswordStrength password))).
Proof.
  split; [ apply validatePasswordStrength_verdict | ].
  unfold PasswordService.validatePasswordStrength. cbv zeta. cbn [snd].
  intro H.
  destruct (existsb (Js.eqb (Js.toLowerCase password)) PasswordService.commonPasswords) eqn:C.
  - rewrite (common_password_has_no_special password C).
    do 5 (apply in_or_app; right). apply in_or_app. left. left. reflexivity.
  - exfalso. rewrite app_nil_r in H.
    repeat (apply in_app_or in H; destruct H as [H | H];
            [ match type of H with
              | In _ (if ?b then _ else _) => destruct b
              end; cbn [In] in H; intuition discriminate | ]).
    match type of H with
    | In _ (if ?b then _ else _) => destruct b
    end; cbn [In] in H; intuition discriminate.
Qed.

(** ** Resetting a password *)

Section ResetFlow.
Context {kdf : Crypto.Kdf}.

Lemma hash_verifies password rnd :
  8 <= PasswordService.len password <= 128 ->
  exists digest,
    PasswordService.hashPassword password rnd = Resolved digest
    /\ PasswordService.verifyPassword password digest = Resolved true.
Proof.
  intro Hlen. eexists. split; [ apply hashPassword_value; exact Hlen | ].
  rewrite verifyPassword_well_formed.
  - rewrite eqb_refl. reflexivity.
  - apply not_falsy_long. lia.
  - apply hex_lacks_colon.
Qed.

Lemma strong_password_length password :
  fst (PasswordService.validatePasswordStrength password) = true ->
  8 <= PasswordService.len password <= 128.
Proof.
  rewrite validatePasswordStrength_verdict. intro H.
  do 4 (apply andb_true_iff in H; destruct H as [H _]).
  apply andb_true_iff in H. destruct H as [Hlo Hhi].
  apply Z.leb_le in Hlo. apply Z.leb_le in Hhi. lia.
Qed.

(** The store after a reset that goes through. *)
Lemma resetPassword_goes_through resetToken newPassword ip ua now rnd db u e digest :
  find (PasswordService.holds_resetToken resetToken) (users db) = Some u ->
  u_passwordResetExpires u = Some e ->
  now <= e ->
  PasswordService.hashPassword newPassword rnd = Resolved digest ->
  exists entry,
    run (PasswordService.resetPassword resetToken newPassword ip ua now rnd) db
    = (Resolved tt,
       mkDb (map (fun x => if PasswordService.has_id (u_id u) x
                           then set_passwordReset digest now x else x) (users db))
            (map (fun r => if Js.eqb (rt_userId r) (u_id u)
                           then set_isActive false r else r) (refreshTokens db))
            (auditLogs db ++ [entry]))
    /\ al_action entry = "PASSWORD_RESET".
Proof.
  intros Hheld Hexp Hnow Hhash. unfold PasswordService.resetPassword.
  rewrite run_bind, run_await. unfold select_user. cbn [fst snd]. rewrite Hheld, Hexp.
  replace (e <? now) with false by (symmetry; apply Z.ltb_ge; lia).
  rewrite run_bind, Hhash. cbn [settle run].
  rewrite run_bind, run_await. cbn [fst snd update_users].
  rewrite run_bind, run_await. cbn [fst snd insert_auditLog].
  unfold JWTService.revokeAllRefreshTokens. rewrite run_bind, run_await.
  cbn [fst snd update_refreshTokens run].
  eexists. split; reflexivity.
Qed.

(** X14.  The reset route with a reset token that a user holds and that
    has not expired (the instant of expiry included) and a new password
    that passes [validatePasswordStrength]: the answer is 200 'Password
    reset successfully'; the stored digest is one that the new password
    verifies against; the failure counter and the lock of the account are
    cleared, so that [isUserLocked] is false at any time; and every refresh
    token of the user is inactive. *)
Theorem password_reset_restores_access (T newPassword : string)
        (forwardedFor ip userAgent : option string) (now : Z) (rnd : list byte)
        (db : Db) (u : User) (e : Z) :
  find (PasswordService.holds_resetToken T) (users db) = Some u ->
  find (PasswordService.has_id (u_id u)) (users db) = Some u ->
  u_passwordResetExpires u = Some e ->
  now <= e ->
  fst (PasswordService.validatePasswordStrength newPassword) = true ->
  exists digest db1,
    run (PasswordResetRoute.POST T newPassword forwardedFor ip userAgent now rnd) db
    = (Resolved (json (JObj [("message", JStr "Password reset successfully")]) 200), db1)
    /\ find (PasswordService.has_id (u_id u)) (users db1)
       = Some (set_passwordReset digest now u)
    /\ PasswordService.verifyPassword newPassword digest = Resolved true
    /\ (forall now', run (PasswordService.isUserLocked (u_id u) now') db1
                     = (Resolved false, db1))
    /\ (forall r, In r (refreshTokens db1) -> rt_userId r = u_id u -> rt_isActive r = false).
Proof.
  intros Hheld Hid Hexp Hnow Hstrong.
  destruct (hash_verifies newPassword rnd (strong_password_length _ Hstrong))
    as [digest [Hhash Hverify]].
  match goal with
  | |- context [PasswordResetRoute.POST T newPassword ?f ?i ?a now rnd] =>
      unfold PasswordResetRoute.POST
  end.
  rewrite Hstrong. cbn [negb].
  match goal with
  | |- context [PasswordService.resetPassword T newPassword ?i ?a now rnd] =>
      destruct (resetPassword_goes_through T newPassword i a now rnd db u e digest
                  Hheld Hexp Hnow Hhash) as [entry [Hrun _]]
  end.
  exists digest. eexists. rewrite run_try_catch, run_bind, Hrun. cbn [run].
  split; [ reflexivity | ].
  assert (Hfound : find (PasswordService.has_id (u_id u))
                     (map (fun x => if PasswordService.has_id (u_id u) x
                                    then set_passwordReset digest now x else x) (users db))
                   = Some (set_passwordReset digest now u)).
  { apply (find_after_update (PasswordService.has_id (u_id u))); auto. }
  split; [ exact Hfound | ]. split; [ exact Hverify | ]. split.
  - intro now'. unfold PasswordService.isUserLocked.
    rewrite run_bind, run_await. unfold select_user. cbn [fst snd users].
    rewrite Hfound. reflexivity.
  - intros r Hr Hu. cbn [refreshTokens] in Hr. apply in_map_iff in Hr.
    destruct Hr as [r0 [E Hr0]]. destruct (Js.eqb (rt_userId r0) (u_id u)) eqn:B.
    + subst r. reflexivity.
    + subst r. apply eqb_false_iff in B. contradiction.
Qed.

End ResetFlow.

(** The theorem at work: Ann, locked out by five wrong guesses, resets
    her password with the link she asked for and is no longer locked. *)
Lemma password_reset_restores_access_witness :
  fst (run (PasswordService.isUserLocked "u1" 20000) Sample.db_reset_requested)
  = Resolved true
  /\ fst (run (PasswordService.isUserLocked "u1" 20000)
              (snd (run (PasswordResetRoute.POST (kdf := Sample.sample_kdf)
                           "VDI=" "N3w-Passw0rd!" None None None 20000 [x02])
                        Sample.db_reset_requested)))
     = Resolved false.
Proof.
  split; [ vm_compute; reflexivity | ].
  destruct (password_reset_restores_access (kdf := Sample.sample_kdf)
              "VDI=" "N3w-Passw0rd!" None None None 20000 [x02]
              Sample.db_reset_requested
              (hd Sample.ann (users Sample.db_reset_requested)) 3610000
              ltac:(vm_compute; reflexivity) ltac:(vm_compute; reflexivity)
              ltac:(vm_compute; reflexivity) ltac:(vm_compute; discriminate)
              ltac:(vm_compute; reflexivity))
    as [digest [db1 [Hrun [_ [_ [Hfree _]]]]]].
  rewrite Hrun. cbn [snd]. change "u1" with (u_id (hd Sample.ann (users Sample.db_reset_requested))).
  rewrite Hfree. reflexivity.
Defined.

(** ** The reset link *)

Lemma find_map_where {A} (w w' : A -> bool) (g : A -> A) (l : list A) :
  (forall x, In x l -> w' (g x) = w x) -> find w' (map g l) = option_map g (find w l).
Proof.
  induction l as [ | a l IH]; intro H; simpl; [ reflexivity | ].
  rewrite (H a (or_introl eq_refl)). destruct (w a); [ reflexivity | ].
  apply IH. intros x Hx. apply H. right. exact Hx.
Qed.

Section ResetLink.
Context {kdf : Crypto.Kdf}.

(** X15.  A reset token that [generatePasswordResetToken] stores for the
    user of an email address, and that nobody held before, is accepted by
    [resetPassword] with any password of 8 to 128 characters up to and
    including one hour after it was generated, and is refused as 'Reset
    token has expired', without any change to the store, at every later
    time. *)
Theorem reset_link_lasts_an_hour (email : string) (now : Z) (T : string) (db : Db) (u : User) :
  find (fun x => Js.eqb (u_email x) email) (users db) = Some u ->
  find (PasswordService.has_id (u_id u)) (users db) = Some u ->
  (forall v, In v (users db) -> PasswordService.holds_resetToken T v = false) ->
  exists db1,
    run (PasswordService.generatePasswordResetToken email now T) db = (Resolved T, db1)
    /\ (forall newPassword ip ua now' rnd,
          8 <= PasswordService.len newPassword <= 128 ->
          now' <= now + 3600000 ->
          fst (run (PasswordService.resetPassword T newPassword ip ua now' rnd) db1)
          = Resolved tt)
    /\ (forall newPassword ip ua now' rnd,
          now + 3600000 < now' ->
          run (PasswordService.resetPassword T newPassword ip ua now' rnd) db1
          = (Rejected (Error "Reset token has expired"), db1)).
Proof.
  intros Hmail Hid Hfresh. unfold PasswordService.generatePasswordResetToken.
  rewrite run_bind, run_await. unfold select_user. cbn [fst snd]. rewrite Hmail.
  rewrite run_bind, run_await. cbn [fst snd update_users].
  rewrite run_bind, run_await. cbn [fst snd insert_auditLog run].
  eexists. split; [ reflexivity | ].
  set (u' := set_resetToken T (now + 60 * 60000) now u).
  assert (Hheld : find (PasswordService.holds_resetToken T)
                    (map (fun x => if PasswordService.has_id (u_id u) x
                                   then set_resetToken T (now + 60 * 60000) now x else x)
                         (users db)) = Some u').
  { rewrite (find_map_where (PasswordService.has_id (u_id u))).
    - rewrite Hid. cbn [option_map]. unfold PasswordService.has_id.
      rewrite eqb_refl. reflexivity.
    - intros x Hx. destruct (PasswordService.has_id (u_id u) x) eqn:B.
      + unfold PasswordService.holds_resetToken. cbn. apply eqb_refl.
      + apply Hfresh. exact Hx. }
  split.
  - intros newPassword ip ua now' rnd Hlen Hnow'.
    match goal with
    | |- fst (run _ ?d) = _ =>
        destruct (resetPassword_goes_through T newPassword ip ua now' rnd d
                    u' (now + 60 * 60000) _ Hheld eq_refl ltac:(lia)
                    (hashPassword_value newPassword rnd Hlen)) as [entry [Hrun _]]
    end.
    rewrite Hrun. reflexivity.
  - intros newPassword ip ua now' rnd Hlate. unfold PasswordService.resetPassword.
    rewrite run_bind, run_await. unfold select_user. cbn [fst snd users with_auditLogs with_users].
    rewrite Hheld. cbn [u' u_passwordResetExpires set_resetToken].
    replace (now + 60 * 60000 <? now') with true by (symmetry; apply Z.ltb_lt; lia).
    reflexivity.
Qed.

End ResetLink.

(** The theorem at work: Ann's link of 10 s is refused at one hour and
    eleven seconds. *)
Lemma reset_link_lasts_an_hour_witness :
  fst (run (PasswordService.resetPassword (kdf := Sample.sample_kdf)
              "VDI=" "N3w-Passw0rd!" None None 3611000 [x02]) Sample.db_reset_requested)
  = Rejected (Error "Reset token has expired").
Proof.
  destruct (reset_link_lasts_an_hour (kdf := Sample.sample_kdf)
              "ann@example.com" 10000 "VDI=" Sample.db_locked
              (hd Sample.ann (users Sample.db_locked))
              ltac:(vm_compute; reflexivity) ltac:(vm_compute; reflexivity)
              ltac:(intros v [<- | [<- | []]]; vm_compute; reflexivity))
    as [db1 [Hrun [_ Hlate]]].
  unfold Sample.db_reset_requested. rewrite Hrun. cbn [snd].
  rewrite Hlate; [ reflexivity | lia ].
Defined.

(** ** Changing a password *)

Section ChangingPassword.
Context {kdf : Crypto.Kdf}.

(** X16.  [changePassword] never resolves and never writes to
    [refresh_tokens].  With the right current password and a new password
    that [hashPassword] accepts, it stores the new digest, writes the
    PASSWORD_CHANGED audit entry and then rejects, because the revocation it
    ends with is called on a name the module [./jwt] does not export: the
    refresh tokens of the user stay as they were. *)
Theorem changePassword_leaves_sessions (userId currentPassword newPassword : string)
        (ip ua : option string) (now : Z) (rnd : list byte) (db : Db) :
  let result :=
    fst (run (PasswordService.changePassword userId currentPassword newPassword ip ua now rnd) db) in
  let db' :=
    snd (run (PasswordService.changePassword userId currentPassword newPassword ip ua now rnd) db) in
  refreshTokens db' = refreshTokens db
  /\ result <> Resolved tt
  /\ (forall u digest,
        find (PasswordService.has_id userId) (users db) = Some u ->
        PasswordService.verifyPassword currentPassword (u_passwordHash u) = Resolved true ->
        PasswordService.hashPassword newPassword rnd = Resolved digest ->
        result = Rejected (Error "Cannot read properties of undefined (reading 'revokeAllRefreshTokens')")
        /\ users db' = map (fun x => if PasswordService.has_id userId x
                                     then set_passwordHash digest now x else x) (users db)
        /\ exists entry, auditLogs db' = auditLogs db ++ [entry]
                         /\ al_action entry = "PASSWORD_CHANGED").
Proof.
  cbv zeta. unfold PasswordService.changePassword.
  rewrite run_bind, run_await. unfold select_user. cbn [fst snd].
  destruct (find (PasswordService.has_id userId) (users db)) as [user | ];
    [ | cbn [run fst snd]; split; [ reflexivity | ]; split; [ discriminate | ];
        intros u digest Hu; discriminate Hu ].
  rewrite run_bind.
  destruct (PasswordService.verifyPassword currentPassword (u_passwordHash user))
    as [[ | ] | err] eqn:V; cbn [settle run negb fst snd].
  - rewrite run_bind.
    destruct (PasswordService.hashPassword newPassword rnd) as [digest | err];
      cbn [settle run fst snd].
    + rewrite run_bind, run_await. cbn [fst snd update_users].
      rewrite run_bind, run_await. cbn [fst snd insert_auditLog run].
      split; [ reflexivity | ]. split; [ discriminate | ].
      intros u digest' Hu _ Hd. inversion Hd; subst digest'.
      split; [ reflexivity | ]. split; [ reflexivity | ].
      eexists. split; reflexivity.
    + split; [ reflexivity | ]. split; [ discriminate | ].
      intros u digest' _ _ Hd. discriminate Hd.
  - split; [ reflexivity | ]. split; [ discriminate | ].
    intros u digest' Hu Hv. inversion Hu; subst u. rewrite V in Hv. discriminate Hv.
  - split; [ reflexivity | ]. split; [ discriminate | ].
    intros u digest' Hu Hv. inversion Hu; subst u. rewrite V in Hv. discriminate Hv.
Qed.

End ChangingPassword.

(** The theorem at work: Ann changes her password at 2 s; the call rejects
    and [t1] is still active. *)
Lemma changePassword_leaves_sessions_witness :
  fst (run (PasswordService.changePassword (kdf := Sample.sample_kdf)
              "u1" "Password1!" "N3w-Passw0rd!" None None 2000 [x03]) Sample.db1)
  = Rejected (Error "Cannot read properties of undefined (reading 'revokeAllRefreshTokens')")
  /\ map rt_isActive
       (refreshTokens
          (snd (run (PasswordService.changePassword (kdf := Sample.sample_kdf)
                       "u1" "Password1!" "N3w-Passw0rd!" None None 2000 [x03]) Sample.db1)))
     = [true].
Proof.
  pose proof (changePassword_leaves_sessions (kdf := Sample.sample_kdf)
                "u1" "Password1!" "N3w-Passw0rd!" None None 2000 [x03] Sample.db1)
    as [Hrows [_ Hdone]].
  split.
  - apply (proj1 (Hdone Sample.ann
                    (match PasswordService.hashPassword (kdf := Sample.sample_kdf)
                             "N3w-Passw0rd!" [x03] with
                     | Resolved digest => digest
                     | Rejected _ => EmptyString
                     end)
                    ltac:(vm_compute; reflexivity) ltac:(vm_compute; reflexivity)
                    ltac:(vm_compute; reflexivity))).
  - rewrite Hrows. vm_compute. reflexivity.
Defined.

(** ** Answers of the login route *)

Section LoginAnswers.
Context {kdf : Crypto.Kdf} {cfg : JWTService.Config}.

(** X17.  The login route gives the same answer, 401 'Invalid email or
    password', for an email address nobody has and for a wrong password of
    an account that is not locked.  For the unknown address the store is
    not touched; for the wrong password the failure is counted on the
    account. *)
Theorem login_hides_unknown_email (email password : string) (rememberMe : bool)
        (ip ua : string) (production : bool) (now : Z) (uuid : string) (db : Db) :
  (find (fun x => Js.eqb (u_email x) (Js.toLowerCase email)) (users db) = None ->
   run (LoginRoute.POST email password rememberMe ip ua production now uuid) db
   = (Resolved (json (JObj [("error", JStr "Invalid email or password")]) 401), db))
  /\ (forall u,
        find (fun x => Js.eqb (u_email x) (Js.toLowerCase email)) (users db) = Some u ->
        find (PasswordService.has_id (u_id u)) (users db) = Some u ->
        u_failedLoginAttempts u < 5 ->
        u_lockedUntil u = None ->
        PasswordService.verifyPassword password (u_passwordHash u) = Resolved false ->
        exists db',
          run (LoginRoute.POST email password rememberMe ip ua production now uuid) db
          = (Resolved (json (JObj [("error", JStr "Invalid email or password")]) 401), db')
          /\ option_map u_failedLoginAttempts
               (find (PasswordService.has_id (u_id u)) (users db'))
             = Some (u_failedLoginAttempts u + 1)).
Proof.
  split.
  - intro Hnone. unfold LoginRoute.POST.
    rewrite run_try_catch, run_bind, run_await. unfold select_user at 1 2. cbn [fst snd].
    rewrite Hnone. reflexivity.
  - intros u Hmail Hid Hn Hlock Hwrong.
    destruct (login_wrong_password production email
                (Scenario.mkAttempt password rememberMe ip ua now uuid) db u
                Hmail Hid Hn Hlock Hwrong) as [db' [Hrun [_ Hfound]]].
    exists db'. split; [ exact Hrun | ]. rewrite Hfound. reflexivity.
Qed.

End LoginAnswers.

(** The theorem at work: a login for an address nobody has, and Ann's
    first wrong guess. *)
Lemma login_hides_unknown_email_witness :
  fst (run (LoginRoute.POST (kdf := Sample.sample_kdf) (cfg := Sample.config)
              "eve@example.com" "guess1" false "10.0.0.9" "curl" false 1000 "r1") Sample.db0)
  = fst (run (LoginRoute.POST (kdf := Sample.sample_kdf) (cfg := Sample.config)
                "ann@example.com" "guess1" false "10.0.0.9" "curl" false 1000 "r1") Sample.db0).
Proof.
  pose proof (login_hides_unknown_email (kdf := Sample.sample_kdf) (cfg := Sample.config)
                "eve@example.com" "guess1" false "10.0.0.9" "curl" false 1000 "r1" Sample.db0)
    as [Hunknown _].
  pose proof (login_hides_unknown_email (kdf := Sample.sample_kdf) (cfg := Sample.config)
                "ann@example.com" "guess1" false "10.0.0.9" "curl" false 1000 "r1" Sample.db0)
    as [_ Hwrong].
  rewrite (Hunknown eq_refl).
  destruct (Hwrong Sample.ann eq_refl eq_refl ltac:(vm_compute; reflexivity) eq_refl
              ltac:(vm_compute; reflexivity)) as [db' [Hrun _]].
  rewrite Hrun. reflexivity.
Defined.

Section LoginSuccess.
Context {kdf : Crypto.Kdf} {cfg : JWTService.Config}.

(** X18.  A login with the right password for an ACTIVE account that is
    not locked, when the store accepts the new refresh-token row: the
    answer is 200 with the pair issued at [now] in the body and in the two
    cookies; the failure counter and lock of the account are cleared and
    the time of the login is recorded; one active row is added for the
    refresh token, with the token itself, no digest, and an expiry 7 days
    after [now].  With [rememberMe] the refresh cookie lasts 30 days, the
    token in it no more than without: from 7 days after the second of its
    issue its signature check fails with 'Refresh token expired'. *)
Theorem login_opens_a_session (email password : string) (rememberMe : bool)
        (ip ua : string) (production : bool) (now : Z) (uuid : string)
        (db : Db) (u : User) :
  find (fun x => Js.eqb (u_email x) (Js.toLowerCase email)) (users db) = Some u ->
  find (PasswordService.has_id (u_id u)) (users db) = Some u ->
  u_failedLoginAttempts u < 5 ->
  u_lockedUntil u = None ->
  PasswordService.verifyPassword password (u_passwordHash u) = Resolved true ->
  u_status u = "ACTIVE" ->
  ~ In uuid (map rt_id (refreshTokens db)) ->
  ~ In (JWTService.generateRefreshToken now) (map rt_token (refreshTokens db)) ->
  let pair := Scenario.pair_for u now in
  let sameSite := if production then "strict" else "lax" in
  exists db',
    run (LoginRoute.POST email password rememberMe ip ua production now uuid) db
    = (Resolved (mkResponse 200
         (JObj [("user",
                 JObj [("id", JStr (u_id u)); ("name", JStr (u_name u));
                       ("email", JStr (u_email u)); ("role", JStr (u_role u));
                       ("emailVerified", JBool (u_emailVerified u));
                       ("avatarUrl", jopt (u_avatarUrl u))]);
                ("tokenPair",
                 JObj [("accessToken", JToken (JWTService.accessToken pair));
                       ("refreshToken", JToken (JWTService.refreshToken pair));
                       ("expiresIn", JNum 900)])])
         [mkCookie "access_token" (JWTService.accessToken pair) false production sameSite 900;
          mkCookie "refresh_token" (JWTService.refreshToken pair) true production sameSite
                   (if rememberMe then 2592000 else 604800)]), db')
    /\ find (PasswordService.has_id (u_id u)) (users db')
       = Some (set_lastLogin now (set_loginSuccess now u))
    /\ refreshTokens db'
       = refreshTokens db ++
         [{| rt_id := uuid;
             rt_userId := u_id u;
             rt_token := JWTService.refreshToken pair;
             rt_tokenHash := None;
             rt_deviceFingerprint := Some ua;
             rt_expiresAt := now + 604800000;
             rt_isActive := true;
             rt_lastUsedAt := None;
             rt_createdAt := now;
             rt_ipAddress := Some ip;
             rt_userAgent := Some ua |}]
    /\ (forall now',
          clockTimestamp now + 604800 <= clockTimestamp now' ->
          JWTService.verifyRefreshToken (JWTService.refreshToken pair) now'
          = inl (Error "Refresh token expired")).
Proof.
  intros Hmail Hid Hn Hlock Hright Hactive Hfresh_id Hfresh_token pair sameSite.
  unfold LoginRoute.POST.
  rewrite run_try_catch, run_bind, run_await. unfold select_user at 1 2. cbn [fst snd].
  rewrite Hmail, run_bind.
  assert (Hfree : run (PasswordService.isUserLocked (u_id u) now) db = (Resolved false, db)).
  { unfold PasswordService.isUserLocked.
    rewrite run_bind, run_await. unfold select_user. cbn [fst snd]. rewrite Hid, Hlock.
    replace (5 <=? u_failedLoginAttempts u) with false by (symmetry; apply Z.leb_gt; lia).
    reflexivity. }
  rewrite Hfree, run_bind, Hright. cbn [settle run negb].
  rewrite (proj2 (eqb_true_iff _ _) Hactive). cbn [negb].
  rewrite run_bind. unfold PasswordService.resetFailedLoginAttempts.
  rewrite run_bind, run_await. cbn [fst snd update_users]. rewrite run_await.
  cbn [fst snd insert_auditLog]. rewrite run_bind.
  match goal with
  | |- context [run (JWTService.createTokenPair ?i ?a ?b ?c ?n ?d) ?s] =>
      destruct (createTokenPair_accepted i a b c n d s (set_loginSuccess now u))
        as [entry [Hpair _]]
  end.
  { cbn [users with_auditLogs with_users].
    apply (find_after_update (PasswordService.has_id (u_id u))); auto. }
  { exact Hfresh_id. }
  { exact Hfresh_token. }
  rewrite Hpair. rewrite run_bind, run_await. cbn [fst snd update_users run].
  eexists. split; [ destruct rememberMe; reflexivity | ].
  cbn [users with_users]. split; [ | split ].
  - apply (find_after_update (PasswordService.has_id (u_id u))
             (u_id u) (set_lastLogin now)); auto.
    apply (find_after_update (PasswordService.has_id (u_id u))); auto.
  - reflexivity.
  - intros now' Hlate.
    cbn [pair Scenario.pair_for JWTService.refreshToken].
    rewrite verifyRefreshToken_issued.
    replace (clockTimestamp now' <? clockTimestamp now + 604800) with false
      by (symmetry; apply Z.ltb_ge; lia).
    reflexivity.
Qed.

End LoginSuccess.

(** The theorem at work: Dora logs in at 1 s and asks to be remembered; her
    refresh cookie lasts 30 days, the row of her token holds no digest, and
    the token no longer verifies on the eighth day. *)
Lemma login_opens_a_session_witness :
  option_map (fun response => map ck_maxAge (cookies response))
    (match fst (run (LoginRoute.POST (kdf := Sample.sample_kdf) (cfg := Sample.config)
                       "Dora@Example.com" "Password1!" true "10.0.0.1" "firefox" true
                       1000 "r1") Sample.db_dora) with
     | Resolved response => Some response
     | Rejected _ => None
     end) = Some [900; 2592000]
  /\ map rt_tokenHash
       (refreshTokens
          (snd (run (LoginRoute.POST (kdf := Sample.sample_kdf) (cfg := Sample.config)
                       "Dora@Example.com" "Password1!" true "10.0.0.1" "firefox" true
                       1000 "r1") Sample.db_dora))) = [None]
  /\ JWTService.verifyRefreshToken (cfg := Sample.config) Sample.t1 604801000
     = inl (Error "Refresh token expired").
Proof.
  destruct (login_opens_a_session (kdf := Sample.sample_kdf) (cfg := Sample.config)
              "Dora@Example.com" "Password1!" true "10.0.0.1" "firefox" true 1000 "r1"
              Sample.db_dora Sample.dora eq_refl eq_refl
              ltac:(vm_compute; reflexivity) eq_refl ltac:(vm_compute; reflexivity) eq_refl
              ltac:(intros []) ltac:(intros []))
    as [db' [Hrun [_ [Hrows Hweek]]]].
  split; [ | split ].
  - rewrite Hrun. reflexivity.
  - rewrite Hrun. cbn [snd]. rewrite Hrows. reflexivity.
  - exact (Hweek 604801000 ltac:(vm_compute; discriminate)).
Defined.

(** ** Answers of the refresh route *)


Section RefreshAnswers.
Context {cfg : JWTService.Config} {rejections : Rejections}.


End RefreshAnswers.


(** ** Logging out *)

Section Logout.
Context {rejections : Rejections}.



End Logout.


(** ** What no call does *)

Lemma awaits_bind {St A B} Q (p : Prog St A) (f : A -> Prog St B) :
  Awaits Q p -> (forall a, Awaits Q (f a)) -> Awaits Q (bind p f).
Proof.
  intros Hp Hf. induction Hp as [a | e | X stmt k Hstmt _ IH]; cbn [bind].
  - apply Hf.
  - apply awaits_Raise.
  - apply awaits_Await; assumption.
Qed.

Lemma awaits_try_catch {St A} Q (p : Prog St A) (h : Thrown -> Prog St A) :
  Awaits Q p -> (forall e, Awaits Q (h e)) -> Awaits Q (try_catch p h).
Proof.
  intros Hp Hh. induction Hp as [a | e | X stmt k Hstmt _ IH]; cbn [try_catch].
  - apply awaits_Return.
  - apply Hh.
  - apply awaits_Await; assumption.
Qed.

Lemma awaits_await {St X} (Q : forall X : Type, (St -> X * St) -> Prop) (stmt : St -> X * St) :
  Q X stmt -> Awaits Q (await stmt).
Proof. intro H. apply awaits_Await; [ exact H | intro x; apply awaits_Return ]. Qed.

Lemma awaits_await_checked {St X} (Q : forall X : Type, (St -> X * St) -> Prop)
      (stmt : St -> (Thrown + X) * St) :
  Q _ stmt -> Awaits Q (await_checked stmt).
Proof.
  intro H. apply awaits_Await; [ exact H | ].
  intros [e | x]; [ apply awaits_Raise | apply awaits_Return ].
Qed.

Lemma awaits_settle {St A} (Q : forall X : Type, (St -> X * St) -> Prop) (r : Settled A) :
  Awaits Q (settle (St := St) r).
Proof. destruct r; [ apply awaits_Return | apply awaits_Raise ]. Qed.

(** A relation between the store before and after that every statement
    keeps is kept by a whole run. *)
Lemma awaits_run {St A} (Q : forall X : Type, (St -> X * St) -> Prop)
      (P : St -> St -> Prop) (p : Prog St A) :
  (forall s, P s s) ->
  (forall s1 s2 s3, P s1 s2 -> P s2 s3 -> P s1 s3) ->
  (forall X stmt, Q X stmt -> forall s, P s (snd (stmt s))) ->
  Awaits Q p -> forall s, P s (snd (run p s)).
Proof.
  intros Hrefl Htrans Hstmt Hp.
  induction Hp as [a | e | X stmt k HQ _ IH]; intro s; cbn [run snd]; try apply Hrefl.
  pose proof (Hstmt X stmt HQ s) as Hstep.
  destruct (stmt s) as [x s']. cbn [snd] in Hstep.
  apply (Htrans s s'); [ exact Hstep | apply IH ].
Qed.

Ltac awaits :=
  repeat first
    [ apply awaits_Return
    | apply awaits_Raise
    | apply awaits_await
    | apply awaits_await_checked
    | apply awaits_settle
    | assumption
    | match goal with H : _ |- Awaits _ _ => solve [ apply H ] end
    | apply awaits_bind; [ | intro ]
    | apply awaits_try_catch; [ | intro ]
    | progress cbv beta zeta
    | match goal with |- Awaits _ (match ?x with _ => _ end) => destruct x end
    | match goal with |- Api.Statement _ _ => constructor end
    | match goal with |- Api.Setter _ => constructor end
    | match goal with |- Api.Retirement _ => constructor end ].

Section CallsAndStatements.
Context {kdf : Crypto.Kdf} {cfg : JWTService.Config} {rejections : Rejections}.

Lemma createTokenPair_awaits userId fp ip ua now uuid :
  Awaits Api.Statement (JWTService.createTokenPair userId fp ip ua now uuid).
Proof. unfold JWTService.createTokenPair, JWTService.createAuditLog. awaits. Qed.

Lemma refreshTokens_awaits t fp ip ua now later uuid :
  Awaits Api.Statement (JWTService.refreshTokens t fp ip ua now later uuid).
Proof.
  pose proof createTokenPair_awaits.
  unfold JWTService.refreshTokens, JWTService.createAuditLog. awaits.
Qed.

Lemma revokeRefreshToken_awaits t userId :
  Awaits Api.Statement (JWTService.revokeRefreshToken t userId).
Proof. unfold JWTService.revokeRefreshToken. awaits. Qed.

Lemma revokeAllRefreshTokens_awaits userId :
  Awaits Api.Statement (JWTService.revokeAllRefreshTokens userId).
Proof. unfold JWTService.revokeAllRefreshTokens. awaits. Qed.

Lemma resetPassword_awaits token new ip ua now rnd :
  Awaits Api.Statement (PasswordService.resetPassword token new ip ua now rnd).
Proof.
  pose proof revokeAllRefreshTokens_awaits.
  unfold PasswordService.resetPassword. awaits.
Qed.

Lemma isUserLocked_awaits userId now :
  Awaits Api.Statement (PasswordService.isUserLocked userId now).
Proof. unfold PasswordService.isUserLocked. awaits. Qed.

Lemma recordFailedLogin_awaits userId ip ua now :
  Awaits Api.Statement (PasswordService.recordFailedLogin userId ip ua now).
Proof. unfold PasswordService.recordFailedLogin. awaits. Qed.

Lemma resetFailedLoginAttempts_awaits userId ip ua now :
  Awaits Api.Statement (PasswordService.resetFailedLoginAttempts userId ip ua now).
Proof. unfold PasswordService.resetFailedLoginAttempts. awaits. Qed.

(** Every call awaits statements of the list only. *)
Lemma call_awaits A (p : Prog Db A) : Api.Call A p -> Awaits Api.Statement p.
Proof.
  pose proof createTokenPair_awaits. pose proof refreshTokens_awaits.
  pose proof revokeRefreshToken_awaits. pose proof revokeAllRefreshTokens_awaits.
  pose proof resetPassword_awaits. pose proof isUserLocked_awaits.
  pose proof recordFailedLogin_awaits. pose proof resetFailedLoginAttempts_awaits.
  induction 1; try solve [ auto ].
  - apply awaits_Return.
  - unfold JWTService.cleanupExpiredTokens. awaits.
  - unfold PasswordService.changePassword. awaits.
  - unfold PasswordService.generatePasswordResetToken. awaits.
  - unfold LoginRoute.POST. awaits.
  - unfold RefreshRoute.POST. awaits.
  - unfold PasswordResetRoute.POST. awaits.
  - unfold LogoutRoute.handler. awaits.
  - unfold Middleware.withAuth. awaits.
  - unfold Middleware.withAdmin, Middleware.withAuth. awaits.
Qed.

End CallsAndStatements.

Section Frames.
Context {kdf : Crypto.Kdf} {cfg : JWTService.Config} {rejections : Rejections}.

(** X21.  The audit log only grows: whatever call of the services, the
    route handlers or the gates runs, and whether it resolves or rejects,
    the audit log afterwards is the audit log before, followed by the
    entries of the call.  No call rewrites or deletes an entry. *)
Theorem audit_log_only_grows (A : Type) (p : Prog Db A) (db : Db) :
  Api.Call A p ->
  exists entries, auditLogs (snd (run p db)) = auditLogs db ++ entries.
Proof.
  intro Hcall.
  apply (awaits_run Api.Statement
           (fun s s' => exists entries, auditLogs s' = auditLogs s ++ entries) p).
  - intro s. exists []. symmetry. apply app_nil_r.
  - intros s1 s2 s3 [l1 H1] [l2 H2]. exists (l1 ++ l2). rewrite H2, H1. symmetry.
    apply app_assoc.
  - intros X stmt Hstmt s.
    destruct Hstmt as [w | w f _ | h | w f _ | h userId f | w | r | l];
      try (exists []; symmetry; apply app_nil_r).
    + unfold insert_refreshToken.
      repeat match goal with
             | |- context [if ?b then _ else _] => destruct b
             end; exists []; symmetry; apply app_nil_r.
    + exists [l]. reflexivity.
  - apply call_awaits. exact Hcall.
Qed.

(** X22.  No call creates or deletes a user, and none changes the id,
    email address, name, role, status or verification flag of one: the
    accounts are the same, in the same order, after every call.  What a call
    can change of a user is the password digest, the reset token, the
    failure counter and lock, and the time stamps. *)
Theorem accounts_keep_their_identity (A : Type) (p : Prog Db A) (db : Db) :
  Api.Call A p ->
  let account u := (u_id u, u_email u, u_name u, u_role u, u_status u,
                    u_emailVerified u, u_emailVerificationToken u, u_avatarUrl u,
                    u_createdAt u) in
  map account (users (snd (run p db))) = map account (users db).
Proof.
  intros Hcall account.
  apply (awaits_run Api.Statement
           (fun s s' => map account (users s') = map account (users s)) p).
  - reflexivity.
  - intros s1 s2 s3 H1 H2. rewrite H2. exact H1.
  - intros X stmt Hstmt s.
    destruct Hstmt as [w | w f Hf | h | w f _ | h userId f | w | r | l]; try reflexivity.
    + cbn [snd update_users users with_users]. rewrite map_map. apply map_ext.
      intro u. destruct (w u); [ | reflexivity ]. destruct Hf; reflexivity.
    + unfold insert_refreshToken.
      repeat match goal with
             | |- context [if ?b then _ else _] => destruct b
             end; reflexivity.
  - apply call_awaits. exact Hcall.
Qed.

End Frames.

(** The theorems at work: a request at the administrators' gate, and
    Ann's request for a reset link. *)
Lemma audit_log_only_grows_witness :
  exists entries,
    auditLogs (snd (run (Middleware.withAdmin (cfg := Sample.config) Sample.whoami
                           Sample.admin_request_of_ann 2000) Sample.db1))
    = auditLogs Sample.db1 ++ entries.
Proof.
  apply (audit_log_only_grows (kdf := Sample.sample_kdf) (cfg := Sample.config)
           (rejections := Sample.rejections)).
  apply Api.call_withAdmin. intro r. apply Api.call_answer.
Defined.

Lemma accounts_keep_their_identity_witness :
  map (fun u => (u_id u, u_email u, u_name u, u_role u, u_status u,
                 u_emailVerified u, u_emailVerificationToken u, u_avatarUrl u,
                 u_createdAt u))
      (users Sample.db_reset_requested)
  = map (fun u => (u_id u, u_email u, u_name u, u_role u, u_status u,
                   u_emailVerified u, u_emailVerificationToken u, u_avatarUrl u,
                   u_createdAt u))
        (users Sample.db_locked).
Proof.
  apply (accounts_keep_their_identity (kdf := Sample.sample_kdf) (cfg := Sample.config)
           (rejections := Sample.rejections) string (PasswordService.generatePasswordResetToken "ann@example.com" 10000 "VDI=")
           Sample.db_locked).
  apply Api.call_generatePasswordResetToken.
Defined.

(** ** Logins that are refused without a trace *)

Section LoginRefusals.
Context {kdf : Crypto.Kdf} {cfg : JWTService.Config}.

(** X26.  Two refusals of the login route for an account that is not
    locked, both without any change to the store.  With the right password
    for an account whose status is not ACTIVE the answer is 403 'Account is
    not active': the status is checked after the password, and neither
    counter nor audit log records the attempt.  When [verifyPassword]
    rejects (the stored digest does not parse) the answer is 500 'Login
    failed', whatever the password. *)
Theorem login_refusals_leave_no_trace (email password : string) (rememberMe : bool)
        (ip ua : string) (production : bool) (now : Z) (uuid : string)
        (db : Db) (u : User) :
  find (fun x => Js.eqb (u_email x) (Js.toLowerCase email)) (users db) = Some u ->
  find (PasswordService.has_id (u_id u)) (users db) = Some u ->
  u_failedLoginAttempts u < 5 ->
  u_lockedUntil u = None ->
  (PasswordService.verifyPassword password (u_passwordHash u) = Resolved true ->
   u_status u <> "ACTIVE" ->
   run (LoginRoute.POST email password rememberMe ip ua production now uuid) db
   = (Resolved (json (JObj [("error", JStr "Account is not active");
                            ("code", JStr "ACCOUNT_INACTIVE")]) 403), db))
  /\ (forall e,
        PasswordService.verifyPassword password (u_passwordHash u) = Rejected e ->
        run (LoginRoute.POST email password rememberMe ip ua production now uuid) db
        = (Resolved (json (JObj [("error", JStr "Login failed")]) 500), db)).
Proof.
  intros Hmail Hid Hn Hlock.
  assert (Hfree : run (PasswordService.isUserLocked (u_id u) now) db = (Resolved false, db)).
  { unfold PasswordService.isUserLocked.
    rewrite run_bind, run_await. unfold select_user. cbn [fst snd]. rewrite Hid, Hlock.
    replace (5 <=? u_failedLoginAttempts u) with false by (symmetry; apply Z.leb_gt; lia).
    reflexivity. }
  split.
  - intros Hright Hstatus. unfold LoginRoute.POST.
    rewrite run_try_catch, run_bind, run_await. unfold select_user at 1 2. cbn [fst snd].
    rewrite Hmail, run_bind, Hfree, run_bind, Hright. cbn [settle run negb].
    rewrite (proj2 (eqb_false_iff _ _) Hstatus). reflexivity.
  - intros e Hreject. unfold LoginRoute.POST.
    rewrite run_try_catch, run_bind, run_await. unfold select_user at 1 2. cbn [fst snd].
    rewrite Hmail, run_bind, Hfree, run_bind, Hreject. reflexivity.
Qed.

End LoginRefusals.

(** The theorem at work: Carol's digest was imported in another format. *)
Lemma login_refusals_leave_no_trace_witness :
  run (LoginRoute.POST (kdf := Sample.sample_kdf) (cfg := Sample.config)
         "carol@example.com" "Password1!" false "10.0.0.1" "firefox" false 1000 "r1")
      Sample.db_carol
  = (Resolved (json (JObj [("error", JStr "Login failed")]) 500), Sample.db_carol).
Proof.
  apply (proj2 (login_refusals_leave_no_trace (kdf := Sample.sample_kdf) (cfg := Sample.config)
                  "carol@example.com" "Password1!" false "10.0.0.1" "firefox" false 1000 "r1"
                  Sample.db_carol Sample.carol eq_refl eq_refl
                  ltac:(vm_compute; reflexivity) eq_refl)
               (RangeError "The value of iterations is out of range")).
  reflexivity.
Defined.
